(** * BabyLM: objective dispatch, difficulty-scorer factory, perplexity estimator

  A shallow embedding of three Python modules of the repository:

  - [src/objective.py]            ([Module Objective]),
  - [src/difficulty_scorer/__init__.py] ([Module DifficultyScorer]),
  - [src/utils/inference.py]      ([Module Inference]).

  Python exceptions are values of [exn]; a call that may raise returns a
  [result].  Dictionaries are [gmap]s, and subscripting a dictionary with a
  missing key raises [KeyError]. *)

From Stdlib Require Import ZArith QArith Reals Lra.
From stdpp Require Import gmap strings list fin_maps.

Local Open Scope Z_scope.
Local Open Scope string_scope.

(** ** Exceptions and results *)

Inductive exn : Type :=
| KeyError (key : string)
| AttributeError (attr : string)
| NotImplementedError (msg : string)
| ValueError (msg : string)
| AssertionError (msg : string)
| RuntimeError (msg : string).

Inductive result (A : Type) : Type :=
| Ok (a : A)
| Raise (e : exn).
Arguments Ok {A} a.
Arguments Raise {A} e.

#[global] Instance result_ret : MRet result := fun A a => Ok a.
#[global] Instance result_bind : MBind result := fun A B f m =>
match m with
| Ok a => f a
| Raise e => Raise e
end.

(** [d[k]] on a dictionary with string keys. *)
Definition getitem {V : Type} (d : gmap string V) (k : string) : result V :=
match d !! k with
| Some v => Ok v
| None => Raise (KeyError k)
end.

(** ** src/objective.py *)

Module Objective.

(** One entry of [curriculum.units].  The source reads the attribute
    [.name] and the item ["mask_probability"] of such an entry; the whole
    entry is handed to the whole-word-masking collator as [args]. *)
Record ObjectiveUnit : Type := {
  name : string;
  mask_probability : Q;
  objective_params : list (string * Q)
}.

(** [curriculum.steps] maps a training step to the key of a unit,
    [curriculum.units] maps a key to the unit's configuration. *)
Record Curriculum : Type := {
  steps : gmap Z string;
  units : gmap string ObjectiveUnit
}.

(** The function logs one line and then returns or raises: a computation
    is the list of the lines logged together with its result. *)
Definition logged (A : Type) : Type := (list string * result A)%type.

Definition pure {A} (r : result A) : logged A := ([], r).

Definition logger_info (line : string) : logged () := ([line], Ok ()).

Definition and_then {A B} (m : logged A) (k : A → logged B) : logged B :=
  match m with
  | (out, Ok a) => let '(out', r) := k a in ((out ++ out')%list, r)
  | (out, Raise e) => (out, Raise e)
  end.

Notation "'do' x <- m ; k" := (and_then m (fun x => k))
  (at level 10, x name, m at level 100, k at level 200).

(** What the library's collator reads of a tokenizer: its mask token. *)
Record PreTrainedTokenizer : Type := {
  mask_token : option string
}.

(** The collators of the transformers library, as the records of their
    keyword arguments. *)
Inductive Collator : Type :=
  | DataCollatorForLanguageModeling
      (tokenizer : PreTrainedTokenizer) (mlm : bool) (mlm_probability : Q)
  | DataCollatorForWholeWordMask
      (tokenizer : PreTrainedTokenizer) (mlm : bool) (mlm_probability : Q).

(** [CustomDataCollatorForWholeWordMask.__init__]: its body is a single
    [raise]; the assignments after it are commented out. *)
Definition CustomDataCollatorForWholeWordMask
    (curriculum : Curriculum) (args : ObjectiveUnit)
    (tokenizer : PreTrainedTokenizer) (mlm : bool) (mlm_probability : Q)
  : result Collator :=
  Raise (NotImplementedError "This class is not implemented yet").

(** Lines 23-27: the value bound to [name] before the log line. *)
Definition active_unit_name (curriculum : Curriculum) (step : Z)
  : result string :=
  match steps curriculum !! step with
  | Some scheduled =>
      u ← getitem (units curriculum) scheduled;
      Ok (name u)
  | None =>
      (* if no start step objective specified, assume the mlm objective *)
      Ok "mlm"
  end.

(** The default of the parameter [step]. *)
Definition step_default : Z := 0.

(** The messages of the two [ValueError]s of the library's collator. *)
Definition no_mask_token : string :=
  "This tokenizer does not have a mask token which is necessary for masked language modeling. You should pass `mlm=False` to train on causal language modeling instead.".

Definition bad_probability : string :=
  "mlm_probability should be between 0 and 1.".

Section Collators.
(** Whether the installed version of the library checks the probability:
    versions differ, and every statement below holds for both. *)
Variable validates_probability : bool.

(** Modelled from the spec: the constructor of the library's collator is
    not under src/.  Called for masked language modelling with a tokenizer
    that has no mask token it fails (the spec's MissingMaskToken, a
    [ValueError] of the library); versions that check the probability fail
    on one outside [0, 1].  Otherwise the collator holds its arguments. *)
Definition new_DataCollatorForLanguageModeling
    (tokenizer : PreTrainedTokenizer) (mlm : bool) (mlm_probability : Q)
  : result Collator :=
  if mlm && bool_decide (mask_token tokenizer = None) then
    Raise (ValueError no_mask_token)
  else if validates_probability && mlm
          && negb (Qle_bool 0 mlm_probability
                   && Qle_bool mlm_probability 1) then
    Raise (ValueError bad_probability)
  else Ok (DataCollatorForLanguageModeling tokenizer mlm mlm_probability).

(** [step = None] is a call that leaves the parameter out. *)
Definition load_objective_collator
    (curriculum : Curriculum) (tokenizer : PreTrainedTokenizer)
    (step : option Z)
  : logged Collator :=
  let step := default step_default step in
  do name <- pure (active_unit_name curriculum step);
  do _ <- logger_info ("Loading objective: " +:+ name);
  if decide (name = "mlm") then
    pure (u ← getitem (units curriculum) name;
          new_DataCollatorForLanguageModeling
            tokenizer true (mask_probability u))
  else if decide (name = "pos") then
    pure (u ← getitem (units curriculum) name;
          args ← getitem (units curriculum) name;
          CustomDataCollatorForWholeWordMask
            curriculum args tokenizer true (mask_probability u))
  else
    pure (Raise (NotImplementedError
                   ("Objective " +:+ name +:+ " is not implemented"))).

End Collators.

End Objective.

(** ** src/difficulty_scorer/__init__.py *)

Module DifficultyScorer.

(** Objects live in a store and are handled through references, so that
    "the same object" is equality of locations. *)
Definition loc : Type := positive.

Inductive val : Type :=
  | VNone
  | VBool (b : bool)
  | VInt (n : Z)
  | VFloat (q : Q)
  | VStr (s : string)
  | VRef (l : loc).

(** An object: the names of its class and of the classes it inherits from,
    and the attributes [hasattr] finds on it. *)
Record object : Type := {
  obj_classes : list string;
  obj_attrs : gmap string val
}.

Abbreviation heap := (gmap loc object).

Definition hasattr (h : heap) (v : val) (attr : string) : bool :=
  match v with
  | VRef l =>
      match h !! l with
      | Some o => bool_decide (is_Some (obj_attrs o !! attr))
      | None => false
      end
  | _ => false
  end.

Definition getattr (h : heap) (v : val) (attr : string) : result val :=
  match v with
  | VRef l =>
      match h !! l with
      | Some o =>
          match obj_attrs o !! attr with
          | Some x => Ok x
          | None => Raise (AttributeError attr)
          end
      | None => Raise (AttributeError attr)
      end
  | _ => Raise (AttributeError attr)
  end.

Definition setattr (h : heap) (v : val) (attr : string) (x : val)
  : result heap :=
  match v with
  | VRef l =>
      match h !! l with
      | Some o =>
          Ok (<[l := {| obj_classes := obj_classes o;
                        obj_attrs := <[attr := x]> (obj_attrs o) |}]> h)
      | None => Raise (AttributeError attr)
      end
  | _ => Raise (AttributeError attr)
  end.

(** [isinstance] against an ordinary class. *)
Definition isinstance (h : heap) (v : val) (cls : string) : bool :=
  match v with
  | VRef l =>
      match h !! l with
      | Some o => bool_decide (cls ∈ obj_classes o)
      | None => false
      end
  | _ => false
  end.

(** [isinstance] against the two [runtime_checkable] protocols, each with
    one data member: the check is the presence of that member. *)
Definition UsesTokenizers (h : heap) (v : val) : bool :=
  hasattr h v "tokenizer".

Definition UsesTrainer (h : heap) (v : val) : bool :=
  hasattr h v "trainer".

(** A registered class, called with keyword arguments, yields the new
    instance or raises. *)
Definition constructor : Type := gmap string val → result object.

(** Calling a class: the instance is stored at a location not in use. *)
Definition instantiate (c : constructor) (kwargs : gmap string val)
    (h : heap) : result (val * heap) :=
  o ← c kwargs;
  let l := fresh (dom h) in
  Ok (VRef l, <[l := o]> h).

(** A value that is not a reference to an object missing from the store. *)
Definition bound (h : heap) (v : val) : Prop :=
  match v with
  | VRef l => is_Some (h !! l)
  | _ => True
  end.

Section Factory.
(** The table of [registry.py]: scorer name to scorer class. *)
Variable DIFFICULTY_SCORER_REGISTRY : gmap string constructor.

Definition get_difficulty_scorer
    (difficulty_scorer_name : string)
    (difficulty_scorer_kwargs : gmap string val)
    (trainer : val) (h : heap) : result (val * heap) :=
  match DIFFICULTY_SCORER_REGISTRY !! difficulty_scorer_name with
  | Some cls =>
      '(difficulty_scorer, h) ← instantiate cls difficulty_scorer_kwargs h;
      h ← (if UsesTrainer h difficulty_scorer
           then setattr h difficulty_scorer "trainer" trainer
           else Ok h);
      h ← (if UsesTokenizers h difficulty_scorer
           then
             tokenizer ← getattr h trainer "tokenizer";
             if isinstance h tokenizer "PreTrainedTokenizerFast"
             then setattr h difficulty_scorer "tokenizer" tokenizer
             else Raise (AssertionError "")
           else Ok h);
      Ok (difficulty_scorer, h)
  | None =>
      Raise (ValueError ("Difficulty Scorer " +:+ difficulty_scorer_name
                         +:+ " not supported."))
  end.

End Factory.

End DifficultyScorer.

(** ** src/utils/inference.py *)

Module Inference.

(** A two-dimensional tensor of shape [(length rows, size1)]: the second
    dimension is kept beside the rows, as it is known for a tensor without
    rows too.  Three-dimensional intermediate tensors are lists of
    matrices. *)
Record tensor (A : Type) : Type := {
  size1 : nat;
  rows : list (list A)
}.
Arguments size1 {A} t.
Arguments rows {A} t.

Definition size0 {A} (t : tensor A) : nat := length (rows t).

Definition well_shaped {A} (t : tensor A) : bool :=
  forallb (λ r, bool_decide (length r = size1 t)) (rows t).

(** The label value the loss skips. *)
Definition ignore_index : Z := -100.

(** [t.unsqueeze(1)]: shape (B, L) to (B, 1, L). *)
Definition unsqueeze1 {A} (t : list (list A)) : list (list (list A)) :=
  (λ r, [r]) <$> t.

(** [t.repeat([1, n, 1])]: each matrix is laid out [n] times along the
    second dimension. *)
Definition repeat1 {A} (n : nat) (t : list (list (list A)))
  : list (list (list A)) :=
  (λ m, concat (replicate n m)) <$> t.

(** [torch.ones(n).diag(0)]: the identity matrix. *)
Definition ones_diag (n : nat) : list (list Z) :=
  (λ i, (λ j, if decide (i = j) then 1 else 0) <$> seq 0 n) <$> seq 0 n.

(** [m.repeat([b, 1, 1])] on a matrix: [b] copies of it. *)
Definition repeat0 {A} (b : nat) (m : list (list A)) : list (list (list A)) :=
  replicate b m.

(** An operation applied to every element of a three-dimensional tensor. *)
Definition map3 {A B} (f : A → B) (t : list (list (list A)))
  : list (list (list B)) :=
  (λ m : list (list A), (λ r : list A, f <$> r) <$> m) <$> t.

(** [t == c] and [t != c], element by element. *)
Definition eq_scalar (t : list (list (list Z))) (c : Z)
  : list (list (list bool)) :=
  map3 (λ x, bool_decide (x = c)) t.

Definition ne_scalar (t : list (list (list Z))) (c : Z)
  : list (list (list bool)) :=
  map3 (λ x, bool_decide (x ≠ c)) t.

(** [t.masked_fill(m, v)] for [m] of the shape of [t]. *)
Definition masked_fill {A} (t : list (list (list A)))
    (m : list (list (list bool))) (v : A) : list (list (list A)) :=
  zip_with (zip_with (zip_with (λ x (b : bool), if b then v else x))) t m.

(** Broadcasting of the sizes of one dimension of two tensors: the sizes
    agree, or one of them is one and gives way to the other; any other pair
    of sizes is an error. *)
Definition broadcast_size (a b : nat) : result nat :=
  if decide (a = b) then Ok a
  else if decide (a = 1%nat) then Ok b
  else if decide (b = 1%nat) then Ok a
  else Raise (RuntimeError
                "The size of tensor a must match the size of tensor b").

(** One dimension of size [from] brought to the size [to] it is broadcast
    to: left as it is when the sizes agree, and otherwise (its size is one)
    its only element repeated [to] times. *)
Definition expand {A} (from to : nat) (l : list A) : list A :=
  if decide (from = to) then l
  else match l with
       | [x] => replicate to x
       | _ => l
       end.

(** [t.masked_fill(m, v)] as torch computes it out of place, for [t] of
    shape [(b, n, l)] and [m] of shape [(b', 1, l')]: the tensor and the
    mask are both expanded to their common shape [(b2, n, l2)], so a mask
    larger than the tensor in a dimension where the tensor has size one
    enlarges the result.  The last dimension [l2] of the result is returned
    with it. *)
Definition masked_fill_broadcast {A} (b n l : nat) (t : list (list (list A)))
    (b' l' : nat) (m : list (list (list bool))) (v : A)
  : result (nat * list (list (list A))) :=
  b2 ← broadcast_size b b';
  l2 ← broadcast_size l l';
  let t := expand b b2 ((λ mat : list (list A), expand l l2 <$> mat) <$> t) in
  let m :=
    expand b' b2
      ((λ mat : list (list bool), expand 1 n (expand l' l2 <$> mat)) <$> m) in
  Ok (l2, masked_fill t m v).

(** The rows of length [n] that a vector of a multiple of [n] elements
    is cut into. *)
Definition chunks {A} (n : nat) (v : list A) : list (list A) :=
  (λ i, take n (drop (i * n) v)) <$> seq 0 (length v / n).

(** [t.view(-1, n)] on a tensor whose last dimension is [d].  With
    [n = 0] the dimension written [-1] cannot be inferred, and torch
    raises.  With [d = n] the leading dimensions are merged.  Otherwise the
    elements are laid out again in rows of [n], which their number has to
    allow. *)
Definition view_rows {A} (d n : nat) (t : list (list (list A)))
  : result (tensor A) :=
  if decide (n = 0%nat) then Raise (RuntimeError "ambiguous shape")
  else if decide (d = n) then Ok {| size1 := n; rows := concat t |}
  else
    let v := concat (concat t) in
    if decide (length v `mod` n = 0)%nat
    then Ok {| size1 := n; rows := chunks n v |}
    else Raise (RuntimeError "invalid shape").

(** [v.view(b, l)] on a vector. *)
Definition view2 {A} (b l : nat) (v : list A) : result (list (list A)) :=
  if decide (length v = (b * l)%nat)
  then Ok ((λ i, take l (drop (i * l) v)) <$> seq 0 b)
  else Raise (RuntimeError "invalid shape").

(** Lines 45-74: the masked inputs and the labels handed to the model and
    to the loss.  For a special-token mask of the shape (B, L) of
    [input_ids] both have shape (B * L, L); a mask of another shape is
    broadcast against the labels, or rejected, as torch does. *)
Definition masked_variants (mask_idx : Z) (batch : gmap string (tensor Z))
  : result (tensor Z * tensor Z) :=
  input_ids ← getitem batch "input_ids";
  let batch_size := size0 input_ids in
  let seq_len := size1 input_ids in
  (* (Batch, #repetitions dimension, seq len) *)
  let input_ids := unsqueeze1 (rows input_ids) in
  let repeat_ids := repeat1 seq_len input_ids in
  let mask := repeat0 batch_size (ones_diag seq_len) in
  (* Setting the diagonal for each batch to MASK token id *)
  let masked_input := masked_fill repeat_ids (eq_scalar mask 1) mask_idx in
  (* set the labels to be the original input ids (all others to -100) *)
  let labels :=
    masked_fill repeat_ids (ne_scalar masked_input mask_idx) ignore_index in
  (* if the label is a special token, set it to -100 *)
  special_tokens_mask ← getitem batch "special_tokens_mask";
  let mask_size0 := size0 special_tokens_mask in
  let mask_size1 := size1 special_tokens_mask in
  let special_tokens_mask := unsqueeze1 (rows special_tokens_mask) in
  '(labels_len, labels) ←
    masked_fill_broadcast batch_size seq_len seq_len labels
      mask_size0 mask_size1 (eq_scalar special_tokens_mask 1) ignore_index;
  (* combining the repeated input ids dimension with the batch dim *)
  masked_input ← view_rows seq_len seq_len masked_input;
  labels ← view_rows labels_len seq_len labels;
  Ok (masked_input, labels).

Record PreTrainedTokenizerFast : Type := {
  mask_token_id : option Z
}.

(** [assert x is not None, msg]. *)
Definition assert_not_None {A} (x : option A) (msg : string) : result A :=
  match x with
  | Some a => Ok a
  | None => Raise (AssertionError msg)
  end.

Section Perplexity.
(** Floating-point values and the three operations applied to them are
    taken as they come: [tsum] is [sum(dim=-1)] on one row, [tmean] is
    [mean(dim=-1)] on one row, [texp] is [torch.exp] on one element.
    [Hidden] is what the model returns. *)
Context {F Hidden : Type}.
Variable tsum : list F → F.
Variable tmean : list F → F.
Variable texp : F → F.

(** A unit of the trainer's objective curriculum: [compute_loss] called
    with the hidden states, an empty input dictionary, the labels and
    [reduction = "none"]. *)
Record ObjectiveUnit : Type := {
  compute_loss : Hidden → tensor Z → tensor F
}.

Record CustomTrainer : Type := {
  model : tensor Z → Hidden;
  objective_curriculum_units : gmap string ObjectiveUnit
}.

Definition compute_trainer_perplexity
    (batch : gmap string (tensor Z))
    (tokenizer : PreTrainedTokenizerFast)
    (trainer : CustomTrainer) : result (list F) :=
  mask_idx ← assert_not_None (mask_token_id tokenizer)
               "The tokenizer must have a mask token and a pad token";
  input_ids ← getitem batch "input_ids";
  let batch_size := size0 input_ids in
  let seq_len := size1 input_ids in
  '(masked_input, labels) ← masked_variants mask_idx batch;
  let base_model_hidden_states := model trainer masked_input in
  (* NOTE: The 'mlm' unit is always in the objective curriculum *)
  mlm ← getitem (objective_curriculum_units trainer) "mlm";
  let loss := compute_loss mlm base_model_hidden_states labels in
  let loss := map tsum (rows loss) in
  loss ← view2 batch_size seq_len loss;
  let mean_loss := map tmean loss in
  let batch_perplexity := map texp mean_loss in
  Ok batch_perplexity.

End Perplexity.

(** *** Names for what the statements below talk about *)

(** The element [t[b, i, j]]. *)
Definition get3 {A} (t : list (list (list A))) (b i j : nat) : option A :=
  m ← t !! b; r ← m !! i; r !! j.

(** [masked_input] and [labels] of [masked_variants] before the final
    [view], for input rows [xs] and special-token rows [ss] of length [n];
    [special3] is the special-token mask expanded along the dimension of
    the variants. *)
Definition masked3 (m : Z) (n : nat) (xs : list (list Z))
  : list (list (list Z)) :=
  masked_fill (repeat1 n (unsqueeze1 xs))
    (eq_scalar (repeat0 (length xs) (ones_diag n)) 1) m.

Definition special3 (n : nat) (ss : list (list Z))
  : list (list (list bool)) :=
  (λ s : list Z, replicate n ((λ x, bool_decide (x = 1)) <$> s)) <$> ss.

Definition labels3 (m : Z) (n : nat) (xs ss : list (list Z))
  : list (list (list Z)) :=
  masked_fill
    (masked_fill (repeat1 n (unsqueeze1 xs))
       (ne_scalar (masked3 m n xs) m) ignore_index)
    (special3 n ss) ignore_index.

End Inference.

(** ** Real-valued stand-in for floating-point numbers

    Used for the concrete runs of the perplexity estimator only: a value is
    a real number or NaN, the mean of no values is NaN (0/0), rounding and
    infinities are left out. *)

Module Ideal.

Inductive float : Type :=
  | Finite (r : R)
  | NaN.

Definition add (a b : float) : float :=
  match a, b with
  | Finite x, Finite y => Finite (x + y)
  | _, _ => NaN
  end.

Definition sum (l : list float) : float := foldr add (Finite 0) l.

Definition mean (l : list float) : float :=
  match l, sum l with
  | _ :: _, Finite s => Finite (s / INR (length l))
  | _, _ => NaN
  end.

Definition exp (a : float) : float :=
  match a with
  | Finite x => Finite (Rtrigo_def.exp x)
  | NaN => NaN
  end.

End Ideal.


(** * Sample inputs *)

Module Samples.
Import Objective.

Definition unit_named (n : string) (p : Q) : ObjectiveUnit :=
  {| name := n; mask_probability := p; objective_params := [] |}.

(** A tokenizer with a mask token, and one without. *)
Definition bert : PreTrainedTokenizer := {| mask_token := Some "[MASK]" |}.

Definition gpt2 : PreTrainedTokenizer := {| mask_token := None |}.

(** A schedule over three units, each stored under its own name. *)
Definition scenario : Curriculum :=
  {| steps := <[0 := "mlm"]> (<[100 := "pos"]> (<[200 := "ner"]> ∅));
     units := <["mlm" := unit_named "mlm" (15 # 100)]>
              (<["pos" := unit_named "pos" (20 # 100)]>
              (<["ner" := unit_named "ner" (10 # 100)]> ∅)) |}.

(** The unit stored under the key ["pos"] carries another name. *)
Definition renamed : Curriculum :=
  {| steps := <[0 := "mlm"]> (<[100 := "pos"]> ∅);
     units := <["mlm" := unit_named "mlm" (15 # 100)]>
              (<["pos" := unit_named "whole_word" (15 # 100)]> ∅) |}.

(** Step 100 is scheduled with a key that [units] does not hold. *)
Definition dangling : Curriculum :=
  {| steps := <[0 := "mlm"]> (<[100 := "pos"]> ∅);
     units := <["mlm" := unit_named "mlm" (15 # 100)]> ∅ |}.

(** The unit named "pos" is stored under the key "warmup" only. *)
Definition misfiled : Curriculum :=
  {| steps := <[0 := "warmup"]> ∅;
     units := <["warmup" := unit_named "pos" (15 # 100)]> ∅ |}.

End Samples.


Module ScorerSamples.
Import DifficultyScorer.

(** A scorer class with a [tokenizer] attribute and no [trainer]
    attribute, and one with both. *)
Definition tokenizer_scorer : constructor := λ kwargs,
  match kwargs !! "n_gram" with
  | Some (VInt n) =>
      Ok {| obj_classes := ["NGramPerplexityScorer"; "BaseDifficultyScorer"];
            obj_attrs := <["n_gram" := VInt n]> (<["tokenizer" := VNone]> ∅) |}
  | _ => Raise (ValueError "n_gram")
  end.

Definition trainer_scorer : constructor := λ kwargs,
  Ok {| obj_classes := ["SelfPerplexityScorer"; "BaseDifficultyScorer"];
        obj_attrs := <["trainer" := VNone]> (<["tokenizer" := VNone]> ∅) |}.

Definition registry : gmap string constructor :=
  <["ngram_perplexity" := tokenizer_scorer]>
  (<["self_perplexity" := trainer_scorer]> ∅).

(** A store with a trainer at location 1 whose [tokenizer] is the fast
    tokenizer at location 2. *)
Definition store : heap :=
  <[1%positive := {| obj_classes := ["CustomTrainer"; "Trainer"];
                     obj_attrs := <["tokenizer" := VRef 2%positive]> ∅ |}]>
  (<[2%positive := {| obj_classes := ["PreTrainedTokenizerFast"];
                      obj_attrs := ∅ |}]> ∅).

Definition kwargs : gmap string val := <["n_gram" := VInt 2]> ∅.

(** A scorer class without [tokenizer] and [trainer] attributes. *)
Definition plain_scorer : constructor := λ _,
  Ok {| obj_classes := ["LengthScorer"; "BaseDifficultyScorer"];
        obj_attrs := <["ascending" := VBool true]> ∅ |}.

Definition plain_registry : gmap string constructor :=
  <["length" := plain_scorer]> ∅.

(** A store whose trainer, at location 1, holds a tokenizer that is not a
    fast one, with a second trainer, at location 3, that has no
    [tokenizer] attribute. *)
Definition slow_store : heap :=
  <[1%positive := {| obj_classes := ["CustomTrainer"; "Trainer"];
                     obj_attrs := <["tokenizer" := VRef 2%positive]> ∅ |}]>
  (<[2%positive := {| obj_classes := ["PreTrainedTokenizer"];
                      obj_attrs := ∅ |}]>
  (<[3%positive := {| obj_classes := ["Trainer"]; obj_attrs := ∅ |}]> ∅)).

(** The instance [tokenizer_scorer] builds from [kwargs], and the store
    after it has been wired in [store]. *)
Definition built_scorer : object :=
  {| obj_classes := ["NGramPerplexityScorer"; "BaseDifficultyScorer"];
     obj_attrs := <["n_gram" := VInt 2]> (<["tokenizer" := VNone]> ∅) |}.

Definition wired_store : heap :=
  <[3%positive :=
      {| obj_classes := ["NGramPerplexityScorer"; "BaseDifficultyScorer"];
         obj_attrs := <["tokenizer" := VRef 2%positive]>
                        (obj_attrs built_scorer) |}]> store.

Definition twice_wired_store : heap :=
  <[4%positive :=
      {| obj_classes := ["NGramPerplexityScorer"; "BaseDifficultyScorer"];
         obj_attrs := <["tokenizer" := VRef 2%positive]>
                        (obj_attrs built_scorer) |}]> wired_store.

End ScorerSamples.

Module InferenceSamples.
Import Inference.

Definition batch_of (input_ids special_tokens_mask : tensor Z)
  : gmap string (tensor Z) :=
  <["input_ids" := input_ids]>
  (<["special_tokens_mask" := special_tokens_mask]> ∅).

Definition tokenizer : PreTrainedTokenizerFast := {| mask_token_id := Some 4 |}.

(** One example of three tokens, none of them special, the second of
    which is the mask token itself. *)
Definition mask_in_input : gmap string (tensor Z) :=
  batch_of {| size1 := 3; rows := [[7; 4; 9]] |}
           {| size1 := 3; rows := [[0; 0; 0]] |}.

(** Two examples with special tokens at both ends. *)
Definition two_examples : gmap string (tensor Z) :=
  batch_of {| size1 := 3; rows := [[1; 7; 2]; [1; 8; 2]] |}
           {| size1 := 3; rows := [[1; 0; 1]; [1; 0; 1]] |}.

(** One example made of special tokens only. *)
Definition all_special : gmap string (tensor Z) :=
  batch_of {| size1 := 2; rows := [[1; 2]] |}
           {| size1 := 2; rows := [[1; 1]] |}.

(** A loss without reduction that charges 1 for every scored label and 0
    for every ignored one. *)
Definition token_loss (y : Z) : Ideal.float :=
  if decide (y = ignore_index) then Ideal.Finite 0 else Ideal.Finite 1.

Definition mlm_unit : @ObjectiveUnit Ideal.float () :=
  {| compute_loss := λ _ labels,
       {| size1 := size1 labels;
          rows := map (map token_loss) (rows labels) |} |}.

Definition trainer : @CustomTrainer Ideal.float () :=
  {| model := λ _, ();
     objective_curriculum_units := <["mlm" := mlm_unit]> ∅ |}.

(** The flattened variants of [two_examples] for the mask token 4. *)
Definition two_examples_masked : tensor Z :=
  {| size1 := 3;
     rows := [[4; 7; 2]; [1; 4; 2]; [1; 7; 4];
              [4; 8; 2]; [1; 4; 2]; [1; 8; 4]] |}.

Definition two_examples_labels : tensor Z :=
  {| size1 := 3;
     rows := [[-100; -100; -100]; [-100; 7; -100]; [-100; -100; -100];
              [-100; -100; -100]; [-100; 8; -100]; [-100; -100; -100]] |}.

(** A tokenizer without a mask token. *)
Definition no_mask_tokenizer : PreTrainedTokenizerFast :=
  {| mask_token_id := None |}.

(** A batch without the key "special_tokens_mask". *)
Definition input_ids_only : gmap string (tensor Z) :=
  <["input_ids" := {| size1 := 3; rows := [[1; 7; 2]] |}]> ∅.

(** Two examples of length zero, and a batch without examples. *)
Definition empty_sequences : gmap string (tensor Z) :=
  batch_of {| size1 := 0; rows := [[]; []] |}
           {| size1 := 0; rows := [[]; []] |}.

Definition empty_batch : gmap string (tensor Z) :=
  batch_of {| size1 := 3; rows := [] |} {| size1 := 3; rows := [] |}.

(** A trainer whose curriculum has no unit "mlm", and one whose loss comes
    back reduced to a single row. *)
Definition bare_trainer : @CustomTrainer Ideal.float () :=
  {| model := λ _, (); objective_curriculum_units := ∅ |}.

Definition reduced_unit : @ObjectiveUnit Ideal.float () :=
  {| compute_loss := λ _ labels,
       {| size1 := 1; rows := [[Ideal.Finite 0]] |} |}.

Definition reducing_trainer : @CustomTrainer Ideal.float () :=
  {| model := λ _, ();
     objective_curriculum_units := <["mlm" := reduced_unit]> ∅ |}.

(** Batches whose special-token mask has another shape than [input_ids]:
    two mask rows for one example, three mask columns for a sequence of
    length one, and three mask columns for a sequence of length two. *)
Definition more_mask_rows : gmap string (tensor Z) :=
  batch_of {| size1 := 2; rows := [[7; 8]] |}
           {| size1 := 2; rows := [[0; 1]; [1; 0]] |}.

Definition more_mask_columns : gmap string (tensor Z) :=
  batch_of {| size1 := 1; rows := [[7]] |}
           {| size1 := 3; rows := [[0; 1; 0]] |}.

Definition other_mask_columns : gmap string (tensor Z) :=
  batch_of {| size1 := 2; rows := [[7; 8]] |}
           {| size1 := 3; rows := [[0; 1; 0]] |}.

(** A model that hands on the number of its input rows and a loss that
    returns a zero for each of them, whatever the labels are. *)
Definition zero_unit : @ObjectiveUnit Ideal.float nat :=
  {| compute_loss := λ n _,
       {| size1 := 1; rows := replicate n [Ideal.Finite 0] |} |}.

Definition zero_trainer : @CustomTrainer Ideal.float nat :=
  {| model := λ masked_input, size0 masked_input;
     objective_curriculum_units := <["mlm" := zero_unit]> ∅ |}.

End InferenceSamples.

(** * Properties of the objective dispatch *)

Lemma getitem_Some {V : Type} (d : gmap string V) k v :
  d !! k = Some v → getitem d k = Ok v.
Proof. intros H. unfold getitem. by rewrite H. Qed.

Lemma getitem_None {V : Type} (d : gmap string V) k :
  d !! k = None → getitem d k = Raise (KeyError k).
Proof. intros H. unfold getitem. by rewrite H. Qed.

Section ObjectiveProps.
Import Objective.
(** [vp]: whether the library checks the probability. *)
Variable vp : bool.
Implicit Types (c : Curriculum) (tok : PreTrainedTokenizer).
Implicit Types (s : Z) (step : option Z).

(** The library's constructor on a tokenizer with a mask token and (where
    it is checked) a probability in range, on a tokenizer without a mask
    token, and what a returned collator tells. *)
Lemma new_DataCollatorForLanguageModeling_Ok tok (p : Q) :
  is_Some (mask_token tok) →
  (vp = true → (0 <= p)%Q ∧ (p <= 1)%Q) →
  new_DataCollatorForLanguageModeling vp tok true p
  = Ok (DataCollatorForLanguageModeling tok true p).
Proof.
  intros [t Ht] Hp. unfold new_DataCollatorForLanguageModeling.
  rewrite Ht. rewrite bool_decide_eq_false_2 by done. simpl.
  destruct vp; simpl; [|done].
  destruct (Hp eq_refl) as [H0 H1].
  apply Qle_bool_iff in H0, H1. by rewrite H0, H1.
Qed.

Lemma new_DataCollatorForLanguageModeling_no_mask_token tok (p : Q) :
  mask_token tok = None →
  new_DataCollatorForLanguageModeling vp tok true p
  = Raise (ValueError no_mask_token).
Proof.
  intros Ht. unfold new_DataCollatorForLanguageModeling.
  rewrite Ht. by rewrite bool_decide_eq_true_2.
Qed.

Lemma new_DataCollatorForLanguageModeling_Ok_inv tok (p : Q) col :
  new_DataCollatorForLanguageModeling vp tok true p = Ok col →
  col = DataCollatorForLanguageModeling tok true p
  ∧ is_Some (mask_token tok).
Proof.
  unfold new_DataCollatorForLanguageModeling.
  destruct (mask_token tok) as [t|] eqn:Ht.
  2:{ by rewrite bool_decide_eq_true_2. }
  rewrite bool_decide_eq_false_2 by done. simpl.
  destruct (vp && _ && _); [done|]. intros [= <-]. eauto.
Qed.

(** Once the name is resolved, the call logs it and dispatches on it. *)
Lemma load_objective_collator_resolved c tok step nm :
  active_unit_name c (default step_default step) = Ok nm →
  load_objective_collator vp c tok step =
    (["Loading objective: " +:+ nm],
     if decide (nm = "mlm") then
       u ← getitem (units c) nm;
       new_DataCollatorForLanguageModeling vp tok true (mask_probability u)
     else if decide (nm = "pos") then
       u ← getitem (units c) nm;
       args ← getitem (units c) nm;
       CustomDataCollatorForWholeWordMask c args tok true (mask_probability u)
     else
       Raise (NotImplementedError
                ("Objective " +:+ nm +:+ " is not implemented"))).
Proof.
  intros Hnm. unfold load_objective_collator. rewrite Hnm. simpl.
  repeat case_decide; reflexivity.
Qed.

(** When the lookup of the scheduled unit raises, nothing is logged. *)
Lemma load_objective_collator_unresolved c tok step e :
  active_unit_name c (default step_default step) = Raise e →
  load_objective_collator vp c tok step = ([], Raise e).
Proof.
  intros Hnm. unfold load_objective_collator. by rewrite Hnm.
Qed.

Lemma active_unit_name_Some c s key u :
  steps c !! s = Some key → units c !! key = Some u →
  active_unit_name c s = Ok (name u).
Proof.
  intros Hs Hu. unfold active_unit_name. rewrite Hs.
  by rewrite (getitem_Some _ _ _ Hu).
Qed.

Lemma active_unit_name_None c s :
  steps c !! s = None → active_unit_name c s = Ok "mlm".
Proof. intros Hs. unfold active_unit_name. by rewrite Hs. Qed.

(** A scheduled key that is not a key of [units] raises [KeyError]. *)
Lemma active_unit_name_KeyError c s key :
  steps c !! s = Some key → units c !! key = None →
  active_unit_name c s = Raise (KeyError key).
Proof.
  intros Hs Hu. unfold active_unit_name. rewrite Hs.
  by rewrite (getitem_None _ _ Hu).
Qed.

(** C1 (amended): for a step [s] that is a key of the schedule, with the
    scheduled key [steps[s]] a key of [units], the resolved name is the
    [name] field of the unit [units[steps[s]]], and that is what is logged;
    it is the string [steps[s]] when the unit's [name] equals the key the
    unit is stored under. *)
Theorem active_unit_name_scheduled c tok s key u :
  steps c !! s = Some key →
  units c !! key = Some u →
  active_unit_name c s = Ok (name u)
  ∧ (load_objective_collator vp c tok (Some s)).1
    = ["Loading objective: " +:+ name u]
  ∧ (name u = key → active_unit_name c s = Ok key).
Proof.
  intros Hs Hu.
  pose proof (active_unit_name_Some c s key u Hs Hu) as Hnm.
  split; [exact Hnm|]. split.
  - by rewrite (load_objective_collator_resolved c tok (Some s) (name u)).
  - intros <-. exact Hnm.
Qed.

(** C2: for a step that is not a key of the schedule the resolved name is
    the literal "mlm", and that is what is logged. *)
Theorem active_unit_name_fallback c tok s :
  steps c !! s = None →
  active_unit_name c s = Ok "mlm"
  ∧ (load_objective_collator vp c tok (Some s)).1
    = ["Loading objective: mlm"].
Proof.
  intros Hs. pose proof (active_unit_name_None c s Hs) as Hnm.
  split; [exact Hnm|].
  by rewrite (load_objective_collator_resolved c tok (Some s) "mlm").
Qed.

(** C6: with a resolved name other than "mlm" and "pos", the call raises
    the error of the last branch, [NotImplementedError] with the message
    "Objective <name> is not implemented", and returns no collator. *)
Theorem load_objective_collator_unsupported c tok step nm :
  active_unit_name c (default step_default step) = Ok nm →
  nm ≠ "mlm" → nm ≠ "pos" →
  load_objective_collator vp c tok step =
    (["Loading objective: " +:+ nm],
     Raise (NotImplementedError
              ("Objective " +:+ nm +:+ " is not implemented"))).
Proof.
  intros Hnm Hmlm Hpos.
  rewrite (load_objective_collator_resolved c tok step nm Hnm).
  by rewrite !decide_False.
Qed.

(** C7 (amended): with the resolved name "pos" and a unit stored under
    "pos" (it is read for its mask probability and passed as [args]), the
    call reaches the constructor of the whole-word-masking collator, which
    raises [NotImplementedError] "This class is not implemented yet"; the
    constructor raises it on all arguments, so no collator exists that
    could process a batch. *)
Theorem load_objective_collator_pos_not_implemented c tok step u :
  active_unit_name c (default step_default step) = Ok "pos" →
  units c !! "pos" = Some u →
  load_objective_collator vp c tok step =
    (["Loading objective: pos"],
     Raise (NotImplementedError "This class is not implemented yet"))
  ∧ ∀ c' args tok' mlm p,
      CustomDataCollatorForWholeWordMask c' args tok' mlm p =
      @Raise Collator
        (NotImplementedError "This class is not implemented yet").
Proof.
  intros Hnm Hu. split; [|done].
  rewrite (load_objective_collator_resolved c tok step "pos" Hnm).
  rewrite decide_False by done. rewrite decide_True by done.
  by rewrite (getitem_Some _ _ _ Hu).
Qed.

(** With the resolved name "pos" no collator is returned, whatever
    [units] holds: without a unit "pos" the lookup raises [KeyError]. *)
Lemma load_objective_collator_pos_raises c tok step :
  active_unit_name c (default step_default step) = Ok "pos" →
  ∃ e, (load_objective_collator vp c tok step).2 = Raise e.
Proof.
  intros Hnm.
  rewrite (load_objective_collator_resolved c tok step "pos" Hnm).
  rewrite decide_False by done. rewrite decide_True by done. simpl.
  unfold getitem. destruct (units c !! "pos"); eauto.
Qed.

(** C8 (amended): with the resolved name "mlm", a unit stored under
    "mlm", a tokenizer that has a mask token and, where the library checks
    it, a mask probability between 0 and 1, the call returns the
    masked-language-model collator whose [mlm_probability] is the
    [mask_probability] of the unit stored under "mlm". *)
Theorem load_objective_collator_mlm c tok step u :
  active_unit_name c (default step_default step) = Ok "mlm" →
  units c !! "mlm" = Some u →
  is_Some (mask_token tok) →
  (vp = true → (0 <= mask_probability u)%Q ∧ (mask_probability u <= 1)%Q) →
  load_objective_collator vp c tok step =
    (["Loading objective: mlm"],
     Ok (DataCollatorForLanguageModeling tok true (mask_probability u))).
Proof.
  intros Hnm Hu Htok Hp.
  rewrite (load_objective_collator_resolved c tok step "mlm" Hnm).
  rewrite decide_True by done.
  rewrite (getitem_Some _ _ _ Hu). cbn [mbind result_bind].
  by rewrite new_DataCollatorForLanguageModeling_Ok.
Qed.

(** C10: a call without [step] is the call with [step = 0]: the name is
    resolved from the schedule's entry for step 0, or is "mlm" when the
    schedule has no such entry. *)
Theorem load_objective_collator_default_step c tok :
  load_objective_collator vp c tok None
  = load_objective_collator vp c tok (Some 0)
  ∧ (load_objective_collator vp c tok None).1 =
    match steps c !! 0 with
    | Some key =>
        match units c !! key with
        | Some u => ["Loading objective: " +:+ name u]
        | None => []
        end
    | None => ["Loading objective: mlm"]
    end.
Proof.
  split; [reflexivity|].
  destruct (steps c !! 0) as [key|] eqn:Hs.
  - destruct (units c !! key) as [u|] eqn:Hu.
    + by rewrite (load_objective_collator_resolved c tok None (name u)
                    (active_unit_name_Some c 0 key u Hs Hu)).
    + by rewrite (load_objective_collator_unresolved c tok None _
                    (active_unit_name_KeyError c 0 key Hs Hu)).
  - by rewrite (load_objective_collator_resolved c tok None "mlm"
                  (active_unit_name_None c 0 Hs)).
Qed.

End ObjectiveProps.

Section ObjectiveExamples.
Import Objective Samples.

(** C1, as stated, fails: step 100 is scheduled with the key "pos", the
    unit stored under "pos" is named "whole_word", and the resolved name is
    "whole_word", not the string of the schedule. *)
Lemma active_unit_name_renamed_unit :
  steps renamed !! 100 = Some "pos"
  ∧ active_unit_name renamed 100 = Ok "whole_word"
  ∧ active_unit_name renamed 100 ≠ Ok "pos"
  ∧ load_objective_collator true renamed bert (Some 100) =
    (["Loading objective: whole_word"],
     Raise (NotImplementedError "Objective whole_word is not implemented")).
Proof.
  split; [reflexivity|]. split; [reflexivity|].
  split; [discriminate|reflexivity].
Qed.

(** Step 100 of the sample schedule: the unit "pos" is stored under its
    own name. *)
Lemma active_unit_name_scheduled_witness :
  (steps scenario !! 100 = Some "pos"
   ∧ units scenario !! "pos" = Some (unit_named "pos" (20 # 100)))
  ∧ active_unit_name scenario 100 = Ok "pos"
  ∧ (load_objective_collator true scenario bert (Some 100)).1
    = ["Loading objective: pos"]
  ∧ ("pos" = "pos" → active_unit_name scenario 100 = Ok "pos").
Proof.
  split; [split; reflexivity|].
  apply (active_unit_name_scheduled true scenario bert 100 "pos"
           (unit_named "pos" (20 # 100))); reflexivity.
Defined.

(** Step 50 is not a key of the sample schedule. *)
Lemma active_unit_name_fallback_witness :
  steps scenario !! 50 = None
  ∧ active_unit_name scenario 50 = Ok "mlm"
  ∧ (load_objective_collator true scenario bert (Some 50)).1
    = ["Loading objective: mlm"].
Proof.
  split; [reflexivity|].
  apply (active_unit_name_fallback true scenario bert 50); reflexivity.
Defined.

(** Step 200 of the sample schedule resolves to "ner". *)
Lemma load_objective_collator_unsupported_witness :
  (active_unit_name scenario 200 = Ok "ner" ∧ "ner" ≠ "mlm" ∧ "ner" ≠ "pos")
  ∧ load_objective_collator true scenario bert (Some 200) =
    (["Loading objective: ner"],
     Raise (NotImplementedError "Objective ner is not implemented")).
Proof.
  split; [split; [reflexivity|split; discriminate]|].
  apply (load_objective_collator_unsupported true scenario bert (Some 200)
           "ner");
    [reflexivity|discriminate|discriminate].
Defined.

(** Step 100 of the sample schedule resolves to "pos". *)
Lemma load_objective_collator_pos_not_implemented_witness :
  (active_unit_name scenario 100 = Ok "pos"
   ∧ units scenario !! "pos" = Some (unit_named "pos" (20 # 100)))
  ∧ load_objective_collator true scenario bert (Some 100) =
    (["Loading objective: pos"],
     Raise (NotImplementedError "This class is not implemented yet")).
Proof.
  split; [split; reflexivity|].
  apply (load_objective_collator_pos_not_implemented true scenario bert
           (Some 100) (unit_named "pos" (20 # 100))); reflexivity.
Defined.

(** C7, as stated, fails: the unit stored under the key "warmup" is named
    "pos", so step 0 resolves to "pos"; no unit is stored under "pos", and
    reading its mask probability raises [KeyError] before the constructor
    of the whole-word-masking collator is entered. *)
Lemma load_objective_collator_pos_unit_absent :
  active_unit_name misfiled 0 = Ok "pos"
  ∧ load_objective_collator true misfiled bert (Some 0)
    = (["Loading objective: pos"], Raise (KeyError "pos"))
  ∧ load_objective_collator false misfiled bert (Some 0)
    = (["Loading objective: pos"], Raise (KeyError "pos")).
Proof. repeat split; reflexivity. Qed.

(** C8, as stated, fails: step 50 of the sample schedule falls back to
    "mlm" and the unit "mlm" is there, but the tokenizer has no mask token
    and the library's constructor raises [ValueError]: no collator is
    returned. *)
Lemma load_objective_collator_mlm_no_mask_token :
  active_unit_name scenario 50 = Ok "mlm"
  ∧ units scenario !! "mlm" = Some (unit_named "mlm" (15 # 100))
  ∧ mask_token gpt2 = None
  ∧ load_objective_collator true scenario gpt2 (Some 50)
    = (["Loading objective: mlm"],
       Raise (ValueError no_mask_token))
  ∧ load_objective_collator false scenario gpt2 (Some 50)
    = (["Loading objective: mlm"],
       Raise (ValueError no_mask_token)).
Proof. repeat split; reflexivity. Qed.

(** Step 50 of the sample schedule falls back to "mlm". *)
Lemma load_objective_collator_mlm_witness :
  (active_unit_name scenario 50 = Ok "mlm"
   ∧ units scenario !! "mlm" = Some (unit_named "mlm" (15 # 100))
   ∧ mask_token bert = Some "[MASK]")
  ∧ load_objective_collator true scenario bert (Some 50) =
    (["Loading objective: mlm"],
     Ok (DataCollatorForLanguageModeling bert true (15 # 100))).
Proof.
  split; [repeat split; reflexivity|].
  apply (load_objective_collator_mlm true scenario bert (Some 50)
           (unit_named "mlm" (15 # 100))); [reflexivity|reflexivity| |].
  - by exists "[MASK]".
  - intros _. split; vm_compute; discriminate.
Defined.

End ObjectiveExamples.

(** * Properties of the difficulty-scorer factory *)

Section FactoryProps.
Import DifficultyScorer.
Implicit Types (h : heap) (l : loc) (o : object) (v x : val) (a : string).

Lemma hasattr_insert_eq h l o a :
  hasattr (<[l := o]> h) (VRef l) a = bool_decide (is_Some (obj_attrs o !! a)).
Proof. unfold hasattr. by rewrite lookup_insert_eq. Qed.

Lemma setattr_insert_eq h l o a x :
  setattr (<[l := o]> h) (VRef l) a x =
  Ok (<[l := {| obj_classes := obj_classes o;
                obj_attrs := <[a := x]> (obj_attrs o) |}]> h).
Proof. unfold setattr. by rewrite lookup_insert_eq, insert_insert_eq. Qed.

Lemma getattr_insert_eq h l o a :
  getattr (<[l := o]> h) (VRef l) a =
  match obj_attrs o !! a with Some x => Ok x | None => Raise (AttributeError a) end.
Proof. unfold getattr. by rewrite lookup_insert_eq. Qed.

(** Storing a new object leaves what is read through older references. *)
Lemma getattr_insert_fresh h l o v a x :
  h !! l = None → getattr h v a = Ok x → getattr (<[l := o]> h) v a = Ok x.
Proof.
  intros Hl. destruct v as [| | | | |l']; simpl; try done.
  destruct (decide (l' = l)) as [->|Hne].
  - by rewrite Hl.
  - by rewrite lookup_insert_ne.
Qed.

Lemma isinstance_insert_fresh h l o v cls :
  h !! l = None → isinstance h v cls = true →
  isinstance (<[l := o]> h) v cls = true.
Proof.
  intros Hl. destruct v as [| | | | |l']; simpl; try done.
  destruct (decide (l' = l)) as [->|Hne].
  - by rewrite Hl.
  - by rewrite lookup_insert_ne.
Qed.

Lemma instantiate_Ok (cls : constructor) kwargs inst h :
  cls kwargs = Ok inst →
  instantiate cls kwargs h =
    Ok (VRef (fresh (dom h)), <[fresh (dom h) := inst]> h)
  ∧ h !! fresh (dom h) = None.
Proof.
  intros Hc. unfold instantiate. rewrite Hc. split; [done|].
  apply not_elem_of_dom, is_fresh.
Qed.

(** The registry is arbitrary. *)
Variable registry : gmap string constructor.

(** C9: for a registered scorer name whose class builds an instance, the
    call returns a reference to that new instance, left otherwise as built.
    If the instance has a [tokenizer] attribute (the [UsesTokenizers]
    check), reading [tokenizer] from it yields the very value read from
    [trainer.tokenizer]; if not, it still has no such attribute.  If it
    has a [trainer] attribute (the [UsesTrainer] check), reading [trainer]
    from it yields the trainer handed in; if not, it has no such
    attribute.  The tokenizer is asserted to be a fast tokenizer, which is
    assumed here for an instance that has the attribute. *)
Theorem get_difficulty_scorer_wired nm (cls : constructor) kwargs inst trainer h :
  registry !! nm = Some cls →
  cls kwargs = Ok inst →
  (is_Some (obj_attrs inst !! "tokenizer") →
   ∃ tk, getattr h trainer "tokenizer" = Ok tk
         ∧ isinstance h tk "PreTrainedTokenizerFast" = true) →
  ∃ l h',
    get_difficulty_scorer registry nm kwargs trainer h = Ok (VRef l, h')
    ∧ h !! l = None
    ∧ (∀ l', l' ≠ l → h' !! l' = h !! l')
    ∧ obj_classes <$> h' !! l = Some (obj_classes inst)
    ∧ (if decide (is_Some (obj_attrs inst !! "tokenizer"))
       then getattr h' (VRef l) "tokenizer" = getattr h trainer "tokenizer"
       else hasattr h' (VRef l) "tokenizer" = false)
    ∧ (if decide (is_Some (obj_attrs inst !! "trainer"))
       then getattr h' (VRef l) "trainer" = Ok trainer
       else hasattr h' (VRef l) "trainer" = false)
    ∧ (∀ a, a ≠ "tokenizer" → a ≠ "trainer" →
         getattr h' (VRef l) a = getattr (<[l := inst]> h) (VRef l) a).
Proof.
  intros Hreg Hcls Htok.
  destruct (instantiate_Ok cls kwargs inst h Hcls) as [Hnew Hfresh].
  set (l := fresh (dom h)) in *.
  assert (Hrun :
    get_difficulty_scorer registry nm kwargs trainer h =
    (h2 ← (if bool_decide (is_Some (obj_attrs inst !! "trainer"))
          then setattr (<[l := inst]> h) (VRef l) "trainer" trainer
          else Ok (<[l := inst]> h));
    h3 ← (if UsesTokenizers h2 (VRef l)
          then tokenizer ← getattr h2 trainer "tokenizer";
               if isinstance h2 tokenizer "PreTrainedTokenizerFast"
               then setattr h2 (VRef l) "tokenizer" tokenizer
               else Raise (AssertionError "")
          else Ok h2);
    Ok (VRef l, h3))).
  { unfold get_difficulty_scorer. rewrite Hreg, Hnew.
    cbn [mbind result_bind]. unfold UsesTrainer.
    by rewrite hasattr_insert_eq. }
  destruct (decide (is_Some (obj_attrs inst !! "trainer"))) as [Htr|Htr];
  destruct (decide (is_Some (obj_attrs inst !! "tokenizer"))) as [Htk|Htk].
  all: try destruct (Htok Htk) as (tk & Hget & Hfast).
  all: exists l; eexists; rewrite Hrun.
  all: rewrite ?(bool_decide_eq_true_2 _ Htr), ?(bool_decide_eq_false_2 _ Htr).
  all: rewrite ?setattr_insert_eq; cbn [mbind result_bind];
       unfold UsesTokenizers.
  all: rewrite hasattr_insert_eq; cbn [obj_attrs].
  all: rewrite ?lookup_insert_ne by done.
  all: rewrite ?(bool_decide_eq_true_2 _ Htk), ?(bool_decide_eq_false_2 _ Htk).
  all: try (
     rewrite (getattr_insert_fresh _ _ _ _ _ _ Hfresh Hget);
     cbn [mbind result_bind];
     rewrite (isinstance_insert_fresh _ _ _ _ _ Hfresh Hfast);
     rewrite setattr_insert_eq, Hget).
  all: cbn [mbind result_bind obj_attrs obj_classes].
  all: (split; [reflexivity|]); (split; [exact Hfresh|]).
  all: (split; [intros l' Hne; by rewrite lookup_insert_ne|]).
  all: (split; [by rewrite lookup_insert_eq|]).
  all: rewrite ?hasattr_insert_eq, ?getattr_insert_eq; cbn [obj_attrs].
  all: rewrite ?lookup_insert_eq, ?lookup_insert_ne by done.
  all: split; [first [reflexivity | by apply bool_decide_eq_false_2]|].
  all: split; [first [by rewrite lookup_insert_eq | reflexivity
                     | by apply bool_decide_eq_false_2]|].
  all: intros a Ha1 Ha2; rewrite ?getattr_insert_eq; cbn [obj_attrs].
  all: by rewrite ?lookup_insert_ne by done.
Qed.

End FactoryProps.

Section ScorerExamples.
Import DifficultyScorer ScorerSamples.

(** The sample scorer with a [tokenizer] attribute, built in the sample
    store: its tokenizer is the object at location 2, the trainer's. *)
Lemma get_difficulty_scorer_wired_witness :
  (registry !! "ngram_perplexity" = Some tokenizer_scorer
   ∧ getattr store (VRef 1%positive) "tokenizer" = Ok (VRef 2%positive)
   ∧ isinstance store (VRef 2%positive) "PreTrainedTokenizerFast" = true)
  ∧ ∃ l h',
      get_difficulty_scorer registry "ngram_perplexity" kwargs (VRef 1%positive) store
      = Ok (VRef l, h')
      ∧ getattr h' (VRef l) "tokenizer" = Ok (VRef 2%positive)
      ∧ hasattr h' (VRef l) "trainer" = false.
Proof.
  split; [repeat split; reflexivity|].
  destruct (get_difficulty_scorer_wired registry "ngram_perplexity"
              tokenizer_scorer kwargs
              {| obj_classes := ["NGramPerplexityScorer"; "BaseDifficultyScorer"];
                 obj_attrs := <["n_gram" := VInt 2]> (<["tokenizer" := VNone]> ∅) |}
              (VRef 1%positive) store)
    as (l & h' & Hrun & _ & _ & _ & Htok & Htr & _);
    try reflexivity.
  - intros _. exists (VRef 2%positive). split; reflexivity.
  - exists l, h'. split; [exact Hrun|]. split.
    + exact Htok.
    + exact Htr.
Defined.

(** The sample scorer with both attributes gets the trainer handed in and
    the trainer's tokenizer. *)
Example get_difficulty_scorer_both_attributes :
  ('(sc, h') ← get_difficulty_scorer registry "self_perplexity" ∅
                  (VRef 1%positive) store;
   tr ← getattr h' sc "trainer";
   tk ← getattr h' sc "tokenizer";
   Ok (sc, tr, tk))
  = Ok (VRef 3%positive, VRef 1%positive, VRef 2%positive).
Proof. vm_compute. reflexivity. Qed.

(** A name that is not registered raises [ValueError]. *)
Example get_difficulty_scorer_unregistered :
  get_difficulty_scorer registry "length" ∅ (VRef 1%positive) store
  = Raise (ValueError "Difficulty Scorer length not supported.").
Proof. reflexivity. Qed.

End ScorerExamples.

(** * Properties of the perplexity estimator *)

Section ListFacts.
Context {A : Type}.
Implicit Types (l r : list A) (ls : list (list A)).

Lemma concat_replicate_singleton (n : nat) r :
  concat (replicate n [r]) = replicate n r.
Proof. induction n as [|n IH]; simpl; [done|]. by rewrite IH. Qed.

Lemma length_concat_uniform (n : nat) ls :
  Forall (λ l, length l = n) ls → length (concat ls) = (length ls * n)%nat.
Proof.
  induction 1 as [|l ls Hl _ IH]; simpl; [done|].
  rewrite length_app, IH, Hl. lia.
Qed.

Lemma lookup_concat_uniform (n : nat) ls (b i : nat) l :
  Forall (λ l, length l = n) ls → ls !! b = Some l → (i < n)%nat →
  concat ls !! (b * n + i)%nat = l !! i.
Proof.
  intros Hall. revert b. induction Hall as [|l' ls Hl _ IH]; intros b Hb Hi.
  - done.
  - destruct b as [|b]; simpl in *.
    + injection Hb as ->. by rewrite lookup_app_l by lia.
    + rewrite lookup_app_r by lia.
      replace (n + b * n + i - length l')%nat with (b * n + i)%nat by lia.
      by apply IH.
Qed.

End ListFacts.

Section TensorFacts.
Import Inference.
Context {A : Type}.

Lemma get3_map3 {B} (f : A → B) t b i j :
  get3 (map3 f t) b i j = f <$> get3 t b i j.
Proof.
  unfold get3, map3. rewrite list_lookup_fmap.
  destruct (t !! b) as [m|]; simpl; [|done].
  rewrite list_lookup_fmap. destruct (m !! i) as [r|]; simpl; [|done].
  by rewrite list_lookup_fmap.
Qed.

Lemma get3_masked_fill (t : list (list (list A))) m v b i j x c :
  get3 t b i j = Some x → get3 m b i j = Some c →
  get3 (masked_fill t m v) b i j = Some (if c : bool then v else x).
Proof.
  unfold get3, masked_fill. rewrite lookup_zip_with.
  destruct (t !! b) as [tm|]; simpl; [|done].
  destruct (m !! b) as [mm|]; simpl; [|done].
  rewrite lookup_zip_with.
  destruct (tm !! i) as [tr|]; simpl; [|done].
  destruct (mm !! i) as [mr|]; simpl; [|done].
  rewrite lookup_zip_with. intros -> ->. done.
Qed.

Lemma masked_fill_length (n : nat) (t : list (list (list A))) m v :
  Forall (λ x, length x = n) t → Forall (λ x, length x = n) m →
  length t = length m →
  Forall (λ x, length x = n) (masked_fill t m v)
  ∧ length (masked_fill t m v) = length t.
Proof.
  intros Ht. revert m. induction Ht as [|x t Hx _ IH]; intros m Hm Hlen.
  - destruct m; simpl in *; done.
  - destruct Hm as [|y m Hy Hm]; simpl in *; [done|].
    destruct (IH m Hm) as [IH1 IH2]; [lia|]. split.
    + constructor; [|done]. rewrite length_zip_with. lia.
    + unfold masked_fill in *. simpl. by rewrite IH2.
Qed.

Lemma repeat1_unsqueeze1 (n : nat) (xs : list (list A)) :
  repeat1 n (unsqueeze1 xs) = replicate n <$> xs.
Proof.
  unfold repeat1, unsqueeze1. rewrite <- list_fmap_compose.
  apply list_fmap_ext. intros _ r _. simpl. apply concat_replicate_singleton.
Qed.

Lemma get3_repeat1 (n : nat) (xs : list (list A)) b i j r :
  xs !! b = Some r → (i < n)%nat →
  get3 (repeat1 n (unsqueeze1 xs)) b i j = r !! j.
Proof.
  intros Hb Hi. rewrite repeat1_unsqueeze1. unfold get3.
  rewrite list_lookup_fmap, Hb. simpl.
  by rewrite lookup_replicate_2.
Qed.

End TensorFacts.

Section MoreTensorFacts.
Import Inference.

Lemma get3_ones_diag (bs n b i j : nat) :
  (b < bs)%nat → (i < n)%nat → (j < n)%nat →
  get3 (repeat0 bs (ones_diag n)) b i j = Some (if decide (i = j) then 1 else 0).
Proof.
  intros Hb Hi Hj. unfold get3, repeat0, ones_diag.
  rewrite lookup_replicate_2 by done. simpl.
  rewrite list_lookup_fmap, lookup_seq_lt by done. simpl.
  by rewrite list_lookup_fmap, lookup_seq_lt by done.
Qed.


Lemma broadcast_size_same (n : nat) : broadcast_size n n = Ok n.
Proof. unfold broadcast_size. by rewrite decide_True. Qed.

Lemma expand_same {A} (n : nat) (l : list A) : expand n n l = l.
Proof. unfold expand. by rewrite decide_True. Qed.

Lemma expand_singleton {A} (n : nat) (x : A) : expand 1 n [x] = replicate n x.
Proof. unfold expand. by destruct (decide (1%nat = n)) as [<-|]. Qed.

Lemma expand_rows_same {A} (n : nat) (t : list (list (list A))) :
  (λ mat : list (list A), expand n n <$> mat) <$> t = t.
Proof.
  rewrite <- (list_fmap_id t) at 2. apply list_fmap_ext. intros _ mat _.
  rewrite <- (list_fmap_id mat) at 2. apply list_fmap_ext. intros _ row _.
  apply expand_same.
Qed.

(** A special-token mask of the shape of [input_ids] is repeated along the
    dimension of the variants, and nothing else is expanded. *)
Lemma masked_fill_broadcast_special {A} (b n : nat)
    (t : list (list (list A))) (ss : list (list Z)) (v : A) :
  masked_fill_broadcast b n n t b n (eq_scalar (unsqueeze1 ss) 1) v
  = Ok (n, masked_fill t (special3 n ss) v).
Proof.
  unfold masked_fill_broadcast. rewrite !broadcast_size_same.
  cbn [mbind result_bind]. rewrite !expand_same, expand_rows_same.
  do 3 f_equal. unfold eq_scalar, map3, unsqueeze1, special3.
  rewrite <- !list_fmap_compose. apply list_fmap_ext. intros _ s _. simpl.
  by rewrite expand_same, expand_singleton.
Qed.

Lemma view_rows_size1 {A} (d n : nat) (t : list (list (list A))) r :
  view_rows d n t = Ok r → size1 r = n.
Proof.
  unfold view_rows. repeat case_decide; try done; by intros [= <-].
Qed.

Lemma view_rows_ambiguous {A} (d n : nat) (t : list (list (list A))) :
  n = 0%nat → view_rows d n t = Raise (RuntimeError "ambiguous shape").
Proof. intros Hn. unfold view_rows. by rewrite decide_True. Qed.

Lemma view_rows_merge {A} (n : nat) (t : list (list (list A))) :
  n ≠ 0%nat → view_rows n n t = Ok {| size1 := n; rows := concat t |}.
Proof.
  intros Hn. unfold view_rows. rewrite decide_False by done.
  by rewrite decide_True.
Qed.

Lemma get3_special3 (n : nat) (ss : list (list Z)) b i j s :
  ss !! b = Some s → (i < n)%nat →
  get3 (special3 n ss) b i j = (λ x, bool_decide (x = 1)) <$> s !! j.
Proof.
  intros Hb Hi. unfold get3, special3. rewrite list_lookup_fmap, Hb. simpl.
  rewrite lookup_replicate_2 by done. simpl. by rewrite list_lookup_fmap.
Qed.

Lemma special3_length (n : nat) (ss : list (list Z)) :
  Forall (λ m, length m = n) (special3 n ss) ∧ length (special3 n ss) = length ss.
Proof.
  unfold special3. split; [|by rewrite length_fmap].
  apply Forall_fmap, Forall_true. intros s. simpl. apply length_replicate.
Qed.

Lemma repeat_ids_length (n : nat) (xs : list (list Z)) :
  Forall (λ m, length m = n) (repeat1 n (unsqueeze1 xs))
  ∧ length (repeat1 n (unsqueeze1 xs)) = length xs.
Proof.
  rewrite repeat1_unsqueeze1. split; [|by rewrite length_fmap].
  apply Forall_fmap, Forall_true. intros s. simpl. apply length_replicate.
Qed.

Lemma map3_length {A B} (f : A → B) (n : nat) t :
  Forall (λ m, length m = n) t →
  Forall (λ m, length m = n) (map3 f t) ∧ length (map3 f t) = length t.
Proof.
  intros Ht. unfold map3. split; [|by rewrite length_fmap].
  apply Forall_fmap. eapply Forall_impl; [exact Ht|].
  intros m Hm. simpl. by rewrite length_fmap.
Qed.

Lemma ones_diag_length (bs n : nat) :
  Forall (λ m, length m = n) (repeat0 bs (ones_diag n))
  ∧ length (repeat0 bs (ones_diag n)) = bs.
Proof.
  unfold repeat0, ones_diag. split; [|by rewrite length_replicate].
  apply Forall_replicate. by rewrite length_fmap, length_seq.
Qed.



Lemma concat_get3 {A} (n : nat) (t : list (list (list A))) b i j :
  Forall (λ m, length m = n) t → (b < length t)%nat → (i < n)%nat →
  ∃ row, concat t !! (b * n + i)%nat = Some row ∧ row !! j = get3 t b i j.
Proof.
  intros Ht Hb Hi.
  destruct (lookup_lt_is_Some_2 t b Hb) as [mat Hmat].
  assert (Hlen : length mat = n).
  { by apply (proj1 (Forall_lookup _ _) Ht b mat). }
  destruct (lookup_lt_is_Some_2 mat i) as [row Hrow]; [lia|].
  exists row. split.
  - by rewrite (lookup_concat_uniform n t b i mat).
  - unfold get3. rewrite Hmat. simpl. by rewrite Hrow.
Qed.

Lemma masked3_length m (n : nat) xs :
  Forall (λ x, length x = n) (masked3 m n xs)
  ∧ length (masked3 m n xs) = length xs.
Proof.
  unfold masked3.
  destruct (repeat_ids_length n xs) as [H1 H2].
  destruct (ones_diag_length (length xs) n) as [H3 H4].
  destruct (map3_length (λ x, bool_decide (x = 1)) n _ H3) as [H5 H6].
  unfold eq_scalar.
  destruct (masked_fill_length n _ _ m H1 H5) as [H7 H8]; [congruence|].
  split; [done|]. congruence.
Qed.

Lemma labels3_length m (n : nat) xs ss :
  length ss = length xs →
  Forall (λ x, length x = n) (labels3 m n xs ss)
  ∧ length (labels3 m n xs ss) = length xs.
Proof.
  intros Hlen. unfold labels3.
  destruct (repeat_ids_length n xs) as [H1 H2].
  destruct (masked3_length m n xs) as [H3 H4].
  destruct (map3_length (λ x, bool_decide (x ≠ m)) n _ H3) as [H5 H6].
  unfold ne_scalar.
  destruct (masked_fill_length n _ _ ignore_index H1 H5) as [H7 H8];
    [congruence|].
  destruct (special3_length n ss) as [H9 H10].
  destruct (masked_fill_length n _ _ ignore_index H7 H9) as [H11 H12];
    [congruence|].
  split; [done|]. congruence.
Qed.

Lemma get3_masked3 m (n : nat) xs b i j r xj :
  xs !! b = Some r → r !! j = Some xj → (i < n)%nat → (j < n)%nat →
  get3 (masked3 m n xs) b i j = Some (if decide (i = j) then m else xj).
Proof.
  intros Hb Hj Hi Hjn. unfold masked3.
  assert (Hbl : (b < length xs)%nat) by (apply lookup_lt_is_Some; eauto).
  erewrite get3_masked_fill.
  2:{ rewrite (get3_repeat1 n xs b i j r Hb Hi). exact Hj. }
  2:{ unfold eq_scalar. rewrite get3_map3, get3_ones_diag by done. done. }
  simpl. by destruct (decide (i = j)).
Qed.

Lemma get3_labels3 m (n : nat) xs ss b i j r s xj sj :
  xs !! b = Some r → ss !! b = Some s →
  r !! j = Some xj → s !! j = Some sj → (i < n)%nat → (j < n)%nat →
  get3 (labels3 m n xs ss) b i j =
  Some (if decide (sj = 1) then ignore_index
        else if decide (i = j ∨ xj = m) then xj else ignore_index).
Proof.
  intros Hb Hsb Hj Hsj Hi Hjn. unfold labels3.
  erewrite get3_masked_fill.
  2:{ erewrite get3_masked_fill.
      - reflexivity.
      - rewrite (get3_repeat1 n xs b i j r Hb Hi). exact Hj.
      - unfold ne_scalar. rewrite get3_map3.
        by rewrite (get3_masked3 m n xs b i j r xj). }
  2:{ rewrite (get3_special3 n ss b i j s Hsb Hi), Hsj. done. }
  simpl. destruct (decide (sj = 1)) as [Hs|Hs].
  - by rewrite bool_decide_eq_true_2.
  - rewrite (bool_decide_eq_false_2 _ Hs).
    destruct (decide (i = j)) as [Hij|Hij].
    + rewrite bool_decide_eq_false_2 by (intros H; by apply H).
      by rewrite decide_True by by left.
    + destruct (decide (xj = m)) as [Hx|Hx].
      * rewrite bool_decide_eq_false_2 by (intros H; by apply H).
        by rewrite decide_True by by right.
      * rewrite bool_decide_eq_true_2 by done.
        by rewrite decide_False by (intros [?|?]; done).
Qed.

Lemma masked_variants_Ok m (batch : gmap string (tensor Z)) x sp :
  batch !! "input_ids" = Some x →
  batch !! "special_tokens_mask" = Some sp →
  size1 x ≠ 0%nat →
  size1 sp = size1 x →
  size0 sp = size0 x →
  well_shaped sp = true →
  masked_variants m batch =
    Ok ({| size1 := size1 x; rows := concat (masked3 m (size1 x) (rows x)) |},
        {| size1 := size1 x;
           rows := concat (labels3 m (size1 x) (rows x) (rows sp)) |}).
Proof.
  intros Hx Hsp HL Hsz1 Hsz0 Hwf. unfold masked_variants.
  rewrite (getitem_Some _ _ _ Hx). cbn [mbind result_bind].
  rewrite (getitem_Some _ _ _ Hsp). cbn [mbind result_bind].
  unfold size0 in *. rewrite Hsz0, Hsz1.
  rewrite masked_fill_broadcast_special. cbn [mbind result_bind].
  rewrite !view_rows_merge by done. cbn [mbind result_bind].
  reflexivity.
Qed.

Lemma get3_masked_fill_None {A} (t : list (list (list A))) m v b i j :
  get3 m b i j = None → get3 (masked_fill t m v) b i j = None.
Proof.
  unfold get3, masked_fill. rewrite lookup_zip_with.
  destruct (t !! b) as [tm|]; simpl; [|done].
  destruct (m !! b) as [mm|]; simpl; [|done].
  rewrite lookup_zip_with.
  destruct (tm !! i) as [tr|]; simpl; [|done].
  destruct (mm !! i) as [mr|]; simpl; [|done].
  rewrite lookup_zip_with. intros ->.
  by destruct (tr !! j).
Qed.

(** The label rows of an example made of special tokens only. *)
Lemma labels3_all_special m (n : nat) xs ss b i r s row :
  xs !! b = Some r → ss !! b = Some s →
  length r = n → length s = n → (i < n)%nat →
  Forall (λ v, v = 1) s →
  labels3 m n xs ss !! b ≫= (.!! i) = Some row →
  row = replicate n ignore_index.
Proof.
  intros Hb Hsb Hr Hs Hi Hall Hrow.
  assert (Hget : ∀ j, row !! j = get3 (labels3 m n xs ss) b i j).
  { intros j. unfold get3.
    destruct (labels3 m n xs ss !! b) as [mat|]; simpl in *; [|done].
    by rewrite Hrow. }
  apply list_eq. intros j. rewrite Hget.
  destruct (decide (j < n)%nat) as [Hj|Hj].
  - destruct (lookup_lt_is_Some_2 r j) as [xj Hxj]; [lia|].
    destruct (lookup_lt_is_Some_2 s j) as [sj Hsj]; [lia|].
    rewrite (get3_labels3 m n xs ss b i j r s xj sj) by done.
    rewrite lookup_replicate_2 by done.
    rewrite decide_True; [done|].
    by apply (proj1 (Forall_lookup _ _) Hall j sj).
  - rewrite (proj1 (lookup_replicate_None _ _ _)) by lia.
    unfold labels3. apply get3_masked_fill_None.
    rewrite (get3_special3 n ss b i j s Hsb Hi).
    by rewrite lookup_ge_None_2 by lia.
Qed.

End MoreTensorFacts.

Section PerplexityProps.
Import Inference.
Context {F Hidden : Type}.
Variable tsum : list F → F.
Variable tmean : list F → F.
Variable texp : F → F.
Implicit Types (batch : gmap string (tensor Z)) (x sp : tensor Z).

Lemma compute_trainer_perplexity_run batch tokenizer
    (trainer : @CustomTrainer F Hidden) m x sp mlm :
  mask_token_id tokenizer = Some m →
  batch !! "input_ids" = Some x →
  batch !! "special_tokens_mask" = Some sp →
  size1 x ≠ 0%nat → size1 sp = size1 x → size0 sp = size0 x →
  well_shaped sp = true →
  objective_curriculum_units trainer !! "mlm" = Some mlm →
  (∀ hid lab, size0 (compute_loss mlm hid lab) = size0 lab) →
  ∃ masked labels,
    masked_variants m batch = Ok (masked, labels)
    ∧ rows labels = concat (labels3 m (size1 x) (rows x) (rows sp))
    ∧ size0 labels = (size0 x * size1 x)%nat
    ∧ compute_trainer_perplexity tsum tmean texp batch tokenizer trainer =
      Ok ((λ b, texp (tmean (tsum <$>
              take (size1 x) (drop (b * size1 x)
                 (rows (compute_loss mlm (model trainer masked) labels))))))
          <$> seq 0 (size0 x)).
Proof.
  intros Hm Hx Hsp HL Hs1 Hs0 Hwf Hmlm Hshape.
  pose proof (masked_variants_Ok m batch x sp Hx Hsp HL Hs1 Hs0 Hwf) as Hmv.
  eexists _, _. split; [exact Hmv|]. split; [done|].
  assert (Hsize : size0 {| size1 := size1 x;
      rows := concat (labels3 m (size1 x) (rows x) (rows sp)) |}
      = (size0 x * size1 x)%nat).
  { unfold size0 in *. simpl.
    destruct (labels3_length m (size1 x) (rows x) (rows sp) Hs0) as [H1 H2].
    by rewrite (length_concat_uniform _ _ H1), H2. }
  split; [exact Hsize|].
  unfold compute_trainer_perplexity. rewrite Hm. cbn [assert_not_None].
  cbn [mbind result_bind]. rewrite (getitem_Some _ _ _ Hx).
  cbn [mbind result_bind]. rewrite Hmv. cbn [mbind result_bind].
  rewrite (getitem_Some _ _ _ Hmlm). cbn [mbind result_bind].
  unfold view2. rewrite decide_True.
  2:{ rewrite length_map. rewrite <- Hsize. apply Hshape. }
  cbn [mbind result_bind]. f_equal.
  change (@map) with (@fmap list _).
  rewrite <- !list_fmap_compose. apply list_fmap_ext. intros _ b _. simpl.
  by rewrite fmap_take, fmap_drop.
Qed.

(** X12: what the label tensor holds, for every batch of well-shaped
    tensors:
    in variant [i] of example [b], position [j] carries the original token
    when it is not special and either [j = i] or the original token is the
    mask token; every other position carries the ignore index. *)
Lemma masked_variants_labels m batch x sp b i j r s xj sj :
  batch !! "input_ids" = Some x →
  batch !! "special_tokens_mask" = Some sp →
  size1 x ≠ 0%nat → size1 sp = size1 x → size0 sp = size0 x →
  well_shaped sp = true →
  rows x !! b = Some r → rows sp !! b = Some s →
  r !! j = Some xj → s !! j = Some sj →
  (i < size1 x)%nat → (j < size1 x)%nat →
  ∃ masked labels row,
    masked_variants m batch = Ok (masked, labels)
    ∧ rows labels !! (b * size1 x + i)%nat = Some row
    ∧ row !! j =
      Some (if decide (sj = 1) then ignore_index
            else if decide (i = j ∨ xj = m) then xj else ignore_index).
Proof.
  intros Hx Hsp HL Hs1 Hs0 Hwf Hb Hsb Hj Hsj Hi Hjn.
  pose proof (masked_variants_Ok m batch x sp Hx Hsp HL Hs1 Hs0 Hwf) as Hmv.
  destruct (labels3_length m (size1 x) (rows x) (rows sp) Hs0) as [H1 H2].
  destruct (concat_get3 (size1 x) (labels3 m (size1 x) (rows x) (rows sp))
              b i j H1) as (row & Hrow & Hget); [|done|].
  { rewrite H2. apply lookup_lt_is_Some. eauto. }
  eexists _, _, row. split; [exact Hmv|]. split; [exact Hrow|].
  rewrite Hget. by apply (get3_labels3 m (size1 x) _ _ b i j r s xj sj).
Qed.

(** C3, the failing input: the mask token (id 4) occurs in the input at a
    position that is not special.  In variant 0 the labels keep the
    original token at position 0 and also at position 1, so two positions
    are scored; the same position 1 is scored in variant 2. *)
Theorem masked_variants_mask_token_in_input :
  masked_variants 4 InferenceSamples.mask_in_input =
  Ok ({| size1 := 3; rows := [[4; 4; 9]; [7; 4; 9]; [7; 4; 4]] |},
      {| size1 := 3;
         rows := [[7; 4; -100]; [-100; 4; -100]; [-100; 4; 9]] |}).
Proof. vm_compute. reflexivity. Qed.


(** C5 (amended): for an example made of special tokens only, every label
    of every variant is the ignore index, and the call handles the example
    like any other: it returns, and the example's value is [exp] of the
    mean of its [L] summed losses, that is of [L] zeros when the loss gives
    a zero sum to a row of ignored labels. *)
Theorem compute_trainer_perplexity_all_special (zero : F) batch tokenizer
    (trainer : @CustomTrainer F Hidden) m x sp mlm b r s :
  mask_token_id tokenizer = Some m →
  batch !! "input_ids" = Some x →
  batch !! "special_tokens_mask" = Some sp →
  size1 x ≠ 0%nat → size1 sp = size1 x → size0 sp = size0 x →
  well_shaped sp = true →
  objective_curriculum_units trainer !! "mlm" = Some mlm →
  (∀ hid lab, size0 (compute_loss mlm hid lab) = size0 lab) →
  (∀ hid lab k row lrow,
     rows lab !! k = Some row → Forall (λ v, v = ignore_index) row →
     rows (compute_loss mlm hid lab) !! k = Some lrow → tsum lrow = zero) →
  rows x !! b = Some r → length r = size1 x →
  rows sp !! b = Some s → Forall (λ v, v = 1) s →
  ∃ masked labels ppl,
    masked_variants m batch = Ok (masked, labels)
    ∧ (∀ i, (i < size1 x)%nat →
         rows labels !! (b * size1 x + i)%nat
         = Some (replicate (size1 x) ignore_index))
    ∧ compute_trainer_perplexity tsum tmean texp batch tokenizer trainer
      = Ok ppl
    ∧ ppl !! b = Some (texp (tmean (replicate (size1 x) zero))).
Proof.
  intros Hm Hx Hsp HL Hs1 Hs0 Hwf Hmlm Hshape Hzero Hb Hr Hsb Hall.
  destruct (compute_trainer_perplexity_run batch tokenizer trainer m x sp mlm
              Hm Hx Hsp HL Hs1 Hs0 Hwf Hmlm Hshape)
    as (masked & labels & Hmv & Hrows & Hsize & Hrun).
  set (L := size1 x) in *.
  assert (Hbl : (b < size0 x)%nat) by (apply lookup_lt_is_Some; eauto).
  assert (Hs : length s = L).
  { unfold well_shaped in Hwf. rewrite forallb_forall in Hwf.
    assert (Hin : In s (rows sp)).
    { apply list_elem_of_In, list_elem_of_lookup. eauto. }
    apply Hwf, bool_decide_eq_true in Hin. rewrite Hin. exact Hs1. }
  destruct (labels3_length m L (rows x) (rows sp) Hs0) as [H1 H2].
  assert (Hlab : ∀ i, (i < L)%nat →
    rows labels !! (b * L + i)%nat = Some (replicate L ignore_index)).
  { intros i Hi. rewrite Hrows.
    destruct (lookup_lt_is_Some_2 (labels3 m L (rows x) (rows sp)) b)
      as [mat Hmat]; [unfold size0 in Hbl; lia|].
    assert (Hlen : length mat = L).
    { by apply (proj1 (Forall_lookup _ _) H1 b mat). }
    destruct (lookup_lt_is_Some_2 mat i) as [row Hrow]; [lia|].
    rewrite (lookup_concat_uniform L _ b i mat H1 Hmat Hi), Hrow. f_equal.
    apply (labels3_all_special m L (rows x) (rows sp) b i r s row);
      try done.
    by rewrite Hmat. }
  eexists masked, labels, _. split; [exact Hmv|]. split; [exact Hlab|].
  split; [exact Hrun|].
  rewrite list_lookup_fmap, lookup_seq_lt by done. simpl. do 3 f_equal.
  apply list_eq. intros i. rewrite list_lookup_fmap.
  destruct (decide (i < L)%nat) as [Hi|Hi].
  - rewrite lookup_take_lt, lookup_drop, lookup_replicate_2 by done.
    destruct (lookup_lt_is_Some_2
                (rows (compute_loss mlm (model trainer masked) labels))
                (b * L + i)) as [lrow Hlrow].
    { fold (size0 (compute_loss mlm (model trainer masked) labels)).
      rewrite Hshape, Hsize. nia. }
    rewrite Hlrow. simpl. f_equal.
    apply (Hzero (model trainer masked) labels _ _ _ (Hlab i Hi));
      [|exact Hlrow].
    by apply Forall_replicate.
  - rewrite lookup_take_ge by lia.
    by rewrite (proj1 (lookup_replicate_None _ _ _)) by lia.
Qed.

End PerplexityProps.

Section InferenceExamples.
Import Inference InferenceSamples.

(** C5, as stated, fails: for a batch whose only example is made of
    special tokens only, with a loss that is zero on ignored labels, the
    call raises nothing and returns the ordinary value 1 = exp 0, not
    NaN. *)
Lemma compute_trainer_perplexity_all_special_value :
  compute_trainer_perplexity Ideal.sum Ideal.mean Ideal.exp
    all_special tokenizer trainer = Ok [Ideal.Finite 1]
  ∧ Ideal.Finite 1 ≠ Ideal.NaN.
Proof.
  split; [|discriminate].
  unfold Ideal.exp. generalize exp_0. generalize Rtrigo_def.exp.
  intros e He. vm_compute. do 3 f_equal.
  transitivity (e 0%R); [f_equal; lra|exact He].
Qed.


(** The sample loss sums to zero over a row of ignored labels. *)
Lemma token_loss_ignored row :
  Forall (λ v, v = ignore_index) row →
  Ideal.sum (token_loss <$> row) = Ideal.Finite 0.
Proof.
  induction 1 as [|y row -> _ IH]; [done|].
  change (Ideal.sum (token_loss <$> ignore_index :: row))
    with (Ideal.add (token_loss ignore_index)
            (Ideal.sum (token_loss <$> row))).
  rewrite IH. unfold token_loss. rewrite decide_True by done.
  simpl. f_equal. lra.
Qed.


(** The batch whose only example is made of special tokens. *)
Lemma compute_trainer_perplexity_all_special_witness :
  (mask_token_id tokenizer = Some 4
   ∧ rows {| size1 := 2; rows := [[1; 1]] |} !! 0%nat = Some [1; 1]
   ∧ Forall (λ v, v = 1) [1; 1])
  ∧ ∃ ppl,
      compute_trainer_perplexity Ideal.sum Ideal.mean Ideal.exp
        all_special tokenizer trainer = Ok ppl
      ∧ ppl !! 0%nat
        = Some (Ideal.exp (Ideal.mean (replicate 2 (Ideal.Finite 0)))).
Proof.
  split; [repeat split; try reflexivity; repeat constructor|].
  destruct (compute_trainer_perplexity_all_special
              Ideal.sum Ideal.mean Ideal.exp (Ideal.Finite 0)
              all_special tokenizer trainer 4
              {| size1 := 2; rows := [[1; 2]] |}
              {| size1 := 2; rows := [[1; 1]] |} mlm_unit 0 [1; 2] [1; 1])
    as (masked & labels & ppl & _ & _ & Hrun & Hval);
    try reflexivity; try discriminate.
  - intros hid lab. unfold size0. simpl. apply length_map.
  - intros hid lab k row lrow Hrow Hall. simpl.
    change (@map) with (@fmap list _).
    rewrite list_lookup_fmap, Hrow. simpl. intros [= <-].
    by apply token_loss_ignored.
  - repeat constructor.
  - exists ppl. split; [exact Hrun|exact Hval].
Defined.

End InferenceExamples.

(** * Further properties of the objective dispatch *)

Section ObjectiveErrors.
Import Objective.
(** [vp]: whether the library checks the probability. *)
Variable vp : bool.
Implicit Types (c : Curriculum) (tok : PreTrainedTokenizer).
Implicit Types (s : Z) (step : option Z).

(** X1: when the key scheduled for the step is not a key of [units], the
    lookup raises [KeyError] with that key before anything is logged. *)
Theorem load_objective_collator_scheduled_unit_missing c tok step key :
  steps c !! default step_default step = Some key →
  units c !! key = None →
  load_objective_collator vp c tok step = ([], Raise (KeyError key)).
Proof.
  intros Hs Hu. apply load_objective_collator_unresolved.
  by apply active_unit_name_KeyError.
Qed.

(** X2: with the resolved name "mlm" or "pos" and no unit stored under
    that name, the name is logged and reading the unit's mask probability
    raises [KeyError]; for "pos" the constructor is not reached. *)
Theorem load_objective_collator_unit_missing c tok step nm :
  active_unit_name c (default step_default step) = Ok nm →
  nm = "mlm" ∨ nm = "pos" →
  units c !! nm = None →
  load_objective_collator vp c tok step =
    (["Loading objective: " +:+ nm], Raise (KeyError nm)).
Proof.
  intros Hnm Hcase Hu.
  rewrite (load_objective_collator_resolved vp c tok step nm Hnm).
  rewrite (getitem_None _ _ Hu).
  destruct Hcase as [->| ->]; reflexivity.
Qed.

(** X3: whenever the call returns a collator, the resolved name was
    "mlm", the tokenizer has a mask token and the collator is the
    masked-language-model one built from the unit "mlm": no other collator
    is ever returned. *)
Theorem load_objective_collator_Ok_inv c tok step col :
  (load_objective_collator vp c tok step).2 = Ok col →
  ∃ u, units c !! "mlm" = Some u
       ∧ active_unit_name c (default step_default step) = Ok "mlm"
       ∧ is_Some (mask_token tok)
       ∧ load_objective_collator vp c tok step =
         (["Loading objective: mlm"],
          Ok (DataCollatorForLanguageModeling tok true (mask_probability u))).
Proof.
  destruct (active_unit_name c (default step_default step)) as [nm|e] eqn:Hnm.
  - rewrite (load_objective_collator_resolved vp c tok step nm Hnm). simpl.
    destruct (decide (nm = "mlm")) as [->|Hmlm].
    + unfold getitem. destruct (units c !! "mlm") as [u|] eqn:Hu; [|done].
      cbn [mbind result_bind]. intros Hnew.
      destruct (new_DataCollatorForLanguageModeling_Ok_inv _ _ _ _ Hnew)
        as [-> Htok].
      exists u. rewrite Hnew. by repeat split.
    + destruct (decide (nm = "pos")) as [->|Hpos]; [|done].
      unfold getitem. by destruct (units c !! "pos").
  - by rewrite (load_objective_collator_unresolved vp c tok step e Hnm).
Qed.

(** X4: the schedule is read at the given step only: scheduling a unit
    at another step changes nothing at this one, so a unit scheduled at
    some step is not active at the steps after it. *)
Theorem load_objective_collator_other_step c tok s s' key :
  s ≠ s' →
  load_objective_collator vp
    {| steps := <[s' := key]> (steps c); units := units c |} tok (Some s)
  = load_objective_collator vp c tok (Some s).
Proof.
  intros Hne. unfold load_objective_collator, active_unit_name. simpl.
  by rewrite lookup_insert_ne.
Qed.

End ObjectiveErrors.

Section ObjectiveErrorExamples.
Import Objective Samples.

(** Step 100 of a schedule whose unit "pos" is missing. *)
Lemma load_objective_collator_scheduled_unit_missing_witness :
  (steps dangling !! 100 = Some "pos" ∧ units dangling !! "pos" = None)
  ∧ load_objective_collator true dangling bert (Some 100)
    = ([], Raise (KeyError "pos")).
Proof.
  split; [split; reflexivity|].
  apply (load_objective_collator_scheduled_unit_missing true dangling bert
           (Some 100) "pos"); reflexivity.
Defined.

(** The unit named "pos" is stored under another key. *)
Lemma load_objective_collator_unit_missing_witness :
  (active_unit_name misfiled 0 = Ok "pos" ∧ units misfiled !! "pos" = None)
  ∧ load_objective_collator true misfiled bert None
    = (["Loading objective: pos"], Raise (KeyError "pos")).
Proof.
  split; [split; reflexivity|].
  apply (load_objective_collator_unit_missing true misfiled bert None "pos");
    [reflexivity|by right|reflexivity].
Defined.

(** Step 50 of the sample schedule returns a collator. *)
Lemma load_objective_collator_Ok_inv_witness :
  (load_objective_collator true scenario bert (Some 50)).2
    = Ok (DataCollatorForLanguageModeling bert true (15 # 100))
  ∧ ∃ u, units scenario !! "mlm" = Some u
         ∧ active_unit_name scenario 50 = Ok "mlm"
         ∧ is_Some (mask_token bert)
         ∧ load_objective_collator true scenario bert (Some 50) =
           (["Loading objective: mlm"],
            Ok (DataCollatorForLanguageModeling bert true (mask_probability u))).
Proof.
  split; [reflexivity|].
  apply (load_objective_collator_Ok_inv true scenario bert (Some 50)
           (DataCollatorForLanguageModeling bert true (15 # 100))).
  reflexivity.
Defined.

(** Scheduling "pos" at step 300, where the sample schedule has no entry,
    leaves step 301 with the fallback "mlm". *)
Lemma load_objective_collator_other_step_witness :
  (301 ≠ 300
   ∧ steps scenario !! 300 = None
   ∧ <[300 := "pos"]> (steps scenario) !! 300 = Some "pos")
  ∧ load_objective_collator true
      {| steps := <[300 := "pos"]> (steps scenario);
         units := units scenario |} bert (Some 301)
    = load_objective_collator true scenario bert (Some 301).
Proof.
  split; [split; [discriminate|split; reflexivity]|].
  apply (load_objective_collator_other_step true scenario bert 301 300 "pos").
  discriminate.
Defined.

End ObjectiveErrorExamples.

(** * Further properties of the difficulty-scorer factory *)

Section FactoryErrors.
Import DifficultyScorer.
Implicit Types (h : heap) (l : loc) (o : object) (v x : val) (a : string).
Variable registry : gmap string constructor.

Lemma getattr_insert_bound h l o v a :
  bound h v → h !! l = None →
  getattr (<[l := o]> h) v a = getattr h v a.
Proof.
  intros Hv Hl. destruct v as [| | | | |l']; simpl in *; try done.
  destruct (decide (l' = l)) as [->|Hne].
  - rewrite Hl in Hv. by destruct Hv.
  - by rewrite lookup_insert_ne.
Qed.

Lemma isinstance_insert_bound h l o v cls :
  bound h v → h !! l = None →
  isinstance (<[l := o]> h) v cls = isinstance h v cls.
Proof.
  intros Hv Hl. destruct v as [| | | | |l']; simpl in *; try done.
  destruct (decide (l' = l)) as [->|Hne].
  - rewrite Hl in Hv. by destruct Hv.
  - by rewrite lookup_insert_ne.
Qed.

Lemma getattr_Ok_bound h v a x : getattr h v a = Ok x → bound h v.
Proof.
  destruct v as [| | | | |l']; simpl; try done.
  destruct (h !! l'); [eauto|done].
Qed.

(** The call once the class has built its instance. *)
Lemma get_difficulty_scorer_built nm (cls : constructor) kwargs inst trainer h :
  registry !! nm = Some cls →
  cls kwargs = Ok inst →
  get_difficulty_scorer registry nm kwargs trainer h =
    (let l := fresh (dom h) in
     h2 ← (if bool_decide (is_Some (obj_attrs inst !! "trainer"))
           then setattr (<[l := inst]> h) (VRef l) "trainer" trainer
           else Ok (<[l := inst]> h));
     h3 ← (if UsesTokenizers h2 (VRef l)
           then tokenizer ← getattr h2 trainer "tokenizer";
                if isinstance h2 tokenizer "PreTrainedTokenizerFast"
                then setattr h2 (VRef l) "tokenizer" tokenizer
                else Raise (AssertionError "")
           else Ok h2);
     Ok (VRef l, h3)).
Proof.
  intros Hreg Hcls.
  destruct (instantiate_Ok cls kwargs inst h Hcls) as [Hnew _].
  unfold get_difficulty_scorer. rewrite Hreg, Hnew.
  cbn [mbind result_bind]. unfold UsesTrainer.
  by rewrite hasattr_insert_eq.
Qed.

(** After the [trainer] step the new instance is still the one at the
    fresh location, with the same [tokenizer] attribute, and older objects
    are as before. *)
Lemma trainer_step h l inst trainer :
  h !! l = None →
  ∃ o', (if bool_decide (is_Some (obj_attrs inst !! "trainer"))
         then setattr (<[l := inst]> h) (VRef l) "trainer" trainer
         else Ok (<[l := inst]> h)) = Ok (<[l := o']> h)
        ∧ obj_classes o' = obj_classes inst
        ∧ obj_attrs o' !! "tokenizer" = obj_attrs inst !! "tokenizer".
Proof.
  intros Hl. case_bool_decide.
  - rewrite setattr_insert_eq. eexists. split; [reflexivity|].
    split; [done|]. simpl. by rewrite lookup_insert_ne.
  - by exists inst.
Qed.

(** X5: a name that is not in the registry raises [ValueError] with the
    message "Difficulty Scorer <name> not supported.", whatever the
    keyword arguments, the trainer and the store. *)
Theorem get_difficulty_scorer_unregistered_name nm kwargs trainer h :
  registry !! nm = None →
  get_difficulty_scorer registry nm kwargs trainer h =
    Raise (ValueError ("Difficulty Scorer " +:+ nm +:+ " not supported.")).
Proof. intros Hreg. unfold get_difficulty_scorer. by rewrite Hreg. Qed.

(** An exception of the scorer class comes out as it is. *)
Lemma get_difficulty_scorer_constructor_raises
    nm (cls : constructor) kwargs trainer h e :
  registry !! nm = Some cls →
  cls kwargs = Raise e →
  get_difficulty_scorer registry nm kwargs trainer h = Raise e.
Proof.
  intros Hreg Hcls. unfold get_difficulty_scorer, instantiate.
  by rewrite Hreg, Hcls.
Qed.

(** X6: for an instance with a [tokenizer] attribute, when
    [trainer.tokenizer] is not an instance of [PreTrainedTokenizerFast]
    the assertion fails and no scorer is returned. *)
Theorem get_difficulty_scorer_tokenizer_not_fast
    nm (cls : constructor) kwargs inst trainer h tk :
  registry !! nm = Some cls →
  cls kwargs = Ok inst →
  is_Some (obj_attrs inst !! "tokenizer") →
  getattr h trainer "tokenizer" = Ok tk →
  bound h tk →
  isinstance h tk "PreTrainedTokenizerFast" = false →
  get_difficulty_scorer registry nm kwargs trainer h =
    Raise (AssertionError "").
Proof.
  intros Hreg Hcls Htk Hget Hb Hslow.
  rewrite (get_difficulty_scorer_built nm cls kwargs inst trainer h Hreg Hcls).
  cbv zeta.
  assert (Hfresh : h !! fresh (dom h) = None).
  { apply not_elem_of_dom, is_fresh. }
  destruct (trainer_step h _ inst trainer Hfresh) as (o' & -> & _ & Ho').
  cbn [mbind result_bind]. unfold UsesTokenizers.
  rewrite hasattr_insert_eq, Ho'. rewrite bool_decide_eq_true_2 by done.
  rewrite (getattr_insert_fresh _ _ _ _ _ _ Hfresh Hget).
  cbn [mbind result_bind].
  by rewrite (isinstance_insert_bound _ _ _ _ _ Hb Hfresh), Hslow.
Qed.

(** X7: for an instance with a [tokenizer] attribute, an exception raised
    by reading [trainer.tokenizer] (the trainer has no such attribute, or
    is [None]) comes out of the call. *)
Theorem get_difficulty_scorer_tokenizer_unreadable
    nm (cls : constructor) kwargs inst trainer h e :
  registry !! nm = Some cls →
  cls kwargs = Ok inst →
  is_Some (obj_attrs inst !! "tokenizer") →
  bound h trainer →
  getattr h trainer "tokenizer" = Raise e →
  get_difficulty_scorer registry nm kwargs trainer h = Raise e.
Proof.
  intros Hreg Hcls Htk Hb Hget.
  rewrite (get_difficulty_scorer_built nm cls kwargs inst trainer h Hreg Hcls).
  cbv zeta.
  assert (Hfresh : h !! fresh (dom h) = None).
  { apply not_elem_of_dom, is_fresh. }
  destruct (trainer_step h _ inst trainer Hfresh) as (o' & -> & _ & Ho').
  cbn [mbind result_bind]. unfold UsesTokenizers.
  rewrite hasattr_insert_eq, Ho'. rewrite bool_decide_eq_true_2 by done.
  by rewrite (getattr_insert_bound _ _ _ _ _ Hb Hfresh), Hget.
Qed.

(** X8: an instance with neither a [trainer] nor a [tokenizer] attribute
    is returned as its class built it: the store gains that object and
    nothing else changes, and the trainer is not looked at. *)
Theorem get_difficulty_scorer_no_dependency
    nm (cls : constructor) kwargs inst trainer h :
  registry !! nm = Some cls →
  cls kwargs = Ok inst →
  obj_attrs inst !! "trainer" = None →
  obj_attrs inst !! "tokenizer" = None →
  get_difficulty_scorer registry nm kwargs trainer h =
    Ok (VRef (fresh (dom h)), <[fresh (dom h) := inst]> h).
Proof.
  intros Hreg Hcls Htr Htk.
  rewrite (get_difficulty_scorer_built nm cls kwargs inst trainer h Hreg Hcls).
  cbv zeta. rewrite Htr.
  rewrite bool_decide_eq_false_2 by (by intros [? ?]).
  cbn [mbind result_bind]. unfold UsesTokenizers.
  rewrite hasattr_insert_eq, Htk.
  by rewrite bool_decide_eq_false_2 by (by intros [? ?]).
Qed.

(** A call that returns has stored one new object, of the class built, at
    the location it returns. *)
Lemma get_difficulty_scorer_Ok_insert nm kwargs trainer h sc h' :
  get_difficulty_scorer registry nm kwargs trainer h = Ok (sc, h') →
  ∃ (cls : constructor) inst o,
    registry !! nm = Some cls
    ∧ cls kwargs = Ok inst
    ∧ h !! fresh (dom h) = None
    ∧ sc = VRef (fresh (dom h))
    ∧ h' = <[fresh (dom h) := o]> h
    ∧ obj_classes o = obj_classes inst.
Proof.
  intros Hrun.
  destruct (registry !! nm) as [cls|] eqn:Hreg.
  2:{ unfold get_difficulty_scorer in Hrun. by rewrite Hreg in Hrun. }
  destruct (cls kwargs) as [inst|e] eqn:Hcls.
  2:{ by rewrite (get_difficulty_scorer_constructor_raises nm cls _ _ _ e)
        in Hrun. }
  exists cls, inst.
  rewrite (get_difficulty_scorer_built nm cls kwargs inst trainer h Hreg Hcls)
    in Hrun.
  cbv zeta in Hrun.
  assert (Hfresh : h !! fresh (dom h) = None).
  { apply not_elem_of_dom, is_fresh. }
  set (l := fresh (dom h)) in *.
  destruct (trainer_step h l inst trainer Hfresh) as (o' & Hstep & Hcl & _).
  rewrite Hstep in Hrun. cbn [mbind result_bind] in Hrun.
  destruct (UsesTokenizers (<[l:=o']> h) (VRef l)).
  - destruct (getattr (<[l:=o']> h) trainer "tokenizer") as [tk|];
      cbn [mbind result_bind] in Hrun; [|done].
    destruct (isinstance (<[l:=o']> h) tk "PreTrainedTokenizerFast");
      [|done].
    rewrite setattr_insert_eq in Hrun. cbn [mbind result_bind] in Hrun.
    injection Hrun; intros <- <-. eexists. by repeat split.
  - cbn [mbind result_bind] in Hrun. injection Hrun; intros <- <-.
    exists o'. by repeat split.
Qed.

(** X9: whenever the call returns, the name is registered, the class has
    built an instance, the reference returned is to an object that was not
    in the store, the store has gained exactly that object, every older
    object is unchanged, and the new object is of the class built. *)
Theorem get_difficulty_scorer_Ok_inv nm kwargs trainer h sc h' :
  get_difficulty_scorer registry nm kwargs trainer h = Ok (sc, h') →
  ∃ (cls : constructor) inst,
    registry !! nm = Some cls
    ∧ cls kwargs = Ok inst
    ∧ sc = VRef (fresh (dom h))
    ∧ h !! fresh (dom h) = None
    ∧ dom h' = dom h ∪ {[fresh (dom h)]}
    ∧ (∀ l', l' ≠ fresh (dom h) → h' !! l' = h !! l')
    ∧ obj_classes <$> h' !! fresh (dom h) = Some (obj_classes inst).
Proof.
  intros Hrun.
  destruct (get_difficulty_scorer_Ok_insert nm kwargs trainer h sc h' Hrun)
    as (cls & inst & o & Hreg & Hcls & Hfresh & -> & -> & Hcl).
  exists cls, inst. split; [done|]. split; [done|].
  split; [done|]. split; [done|]. split.
  { rewrite dom_insert_L. apply union_comm_L. }
  split.
  { intros l' Hne. by rewrite lookup_insert_ne. }
  rewrite lookup_insert_eq. simpl. by rewrite Hcl.
Qed.

(** X10: two calls in a row return references to two different objects,
    and the second call leaves the scorer of the first one as it was:
    scorers are never shared between calls. *)
Theorem get_difficulty_scorer_twice
    nm1 kwargs1 trainer1 nm2 kwargs2 trainer2 h sc1 h1 sc2 h2 :
  get_difficulty_scorer registry nm1 kwargs1 trainer1 h = Ok (sc1, h1) →
  get_difficulty_scorer registry nm2 kwargs2 trainer2 h1 = Ok (sc2, h2) →
  sc1 ≠ sc2
  ∧ ∃ l1, sc1 = VRef l1 ∧ is_Some (h1 !! l1) ∧ h2 !! l1 = h1 !! l1.
Proof.
  intros Hrun1 Hrun2.
  destruct (get_difficulty_scorer_Ok_insert _ _ _ _ _ _ Hrun1)
    as (_ & _ & o1 & _ & _ & _ & -> & -> & _).
  destruct (get_difficulty_scorer_Ok_insert _ _ _ _ _ _ Hrun2)
    as (_ & _ & o2 & _ & _ & Hfresh2 & -> & -> & _).
  set (l1 := fresh (dom h)) in *.
  set (l2 := fresh (dom (<[l1 := o1]> h))) in *.
  assert (Hne : l1 ≠ l2).
  { intros Heq. rewrite <- Heq in Hfresh2.
    by rewrite lookup_insert_eq in Hfresh2. }
  split; [congruence|]. exists l1. split; [done|].
  rewrite lookup_insert_eq. split; [eauto|].
  rewrite lookup_insert_ne by (intros Heq; by apply Hne).
  by rewrite lookup_insert_eq.
Qed.

End FactoryErrors.

Section FactoryErrorExamples.
Import DifficultyScorer ScorerSamples.

(** The name "length" is not in the sample registry. *)
Lemma get_difficulty_scorer_unregistered_name_witness :
  registry !! "length" = None
  ∧ get_difficulty_scorer registry "length" kwargs (VRef 1%positive) store
    = Raise (ValueError "Difficulty Scorer length not supported.").
Proof.
  split; [reflexivity|].
  apply (get_difficulty_scorer_unregistered_name registry "length");
    reflexivity.
Defined.

(** The trainer at location 1 of [slow_store] holds a slow tokenizer. *)
Lemma get_difficulty_scorer_tokenizer_not_fast_witness :
  (getattr slow_store (VRef 1%positive) "tokenizer" = Ok (VRef 2%positive)
   ∧ isinstance slow_store (VRef 2%positive) "PreTrainedTokenizerFast"
     = false)
  ∧ get_difficulty_scorer registry "ngram_perplexity" kwargs
      (VRef 1%positive) slow_store
    = Raise (AssertionError "").
Proof.
  split; [split; reflexivity|].
  apply (get_difficulty_scorer_tokenizer_not_fast registry "ngram_perplexity"
           tokenizer_scorer kwargs built_scorer (VRef 1%positive) slow_store
           (VRef 2%positive)); try reflexivity.
  - by exists VNone.
  - by eexists.
Defined.

(** The trainer at location 3 of [slow_store] has no tokenizer. *)
Lemma get_difficulty_scorer_tokenizer_unreadable_witness :
  getattr slow_store (VRef 3%positive) "tokenizer"
    = Raise (AttributeError "tokenizer")
  ∧ get_difficulty_scorer registry "ngram_perplexity" kwargs
      (VRef 3%positive) slow_store
    = Raise (AttributeError "tokenizer").
Proof.
  split; [reflexivity|].
  apply (get_difficulty_scorer_tokenizer_unreadable registry
           "ngram_perplexity" tokenizer_scorer kwargs built_scorer
           (VRef 3%positive) slow_store (AttributeError "tokenizer"));
    try reflexivity.
  - by exists VNone.
  - by eexists.
Defined.

(** A scorer without dependencies, with [None] for a trainer. *)
Lemma get_difficulty_scorer_no_dependency_witness :
  plain_registry !! "length" = Some plain_scorer
  ∧ get_difficulty_scorer plain_registry "length" ∅ VNone store
    = Ok (VRef 3%positive,
          <[3%positive :=
              {| obj_classes := ["LengthScorer"; "BaseDifficultyScorer"];
                 obj_attrs := <["ascending" := VBool true]> ∅ |}]> store).
Proof.
  split; [reflexivity|].
  apply (get_difficulty_scorer_no_dependency plain_registry "length"
           plain_scorer ∅
           {| obj_classes := ["LengthScorer"; "BaseDifficultyScorer"];
              obj_attrs := <["ascending" := VBool true]> ∅ |} VNone store);
    reflexivity.
Defined.

(** The run of the sample tokenizer scorer in the sample store. *)
Lemma get_difficulty_scorer_Ok_inv_witness :
  get_difficulty_scorer registry "ngram_perplexity" kwargs
    (VRef 1%positive) store = Ok (VRef 3%positive, wired_store)
  ∧ ∃ (cls : constructor) inst,
      registry !! "ngram_perplexity" = Some cls
      ∧ cls kwargs = Ok inst
      ∧ VRef 3%positive = VRef (fresh (dom store))
      ∧ store !! fresh (dom store) = None
      ∧ dom wired_store = dom store ∪ {[fresh (dom store)]}
      ∧ (∀ l', l' ≠ fresh (dom store) → wired_store !! l' = store !! l')
      ∧ obj_classes <$> wired_store !! fresh (dom store)
        = Some (obj_classes inst).
Proof.
  assert (Hrun : get_difficulty_scorer registry "ngram_perplexity" kwargs
            (VRef 1%positive) store = Ok (VRef 3%positive, wired_store)).
  { vm_compute. reflexivity. }
  split; [exact Hrun|].
  exact (get_difficulty_scorer_Ok_inv registry "ngram_perplexity" kwargs
           (VRef 1%positive) store (VRef 3%positive) wired_store Hrun).
Defined.

(** The same scorer built twice in the sample store. *)
Lemma get_difficulty_scorer_twice_witness :
  get_difficulty_scorer registry "ngram_perplexity" kwargs
    (VRef 1%positive) store = Ok (VRef 3%positive, wired_store)
  ∧ VRef 3%positive ≠ VRef 4%positive
  ∧ ∃ l1, VRef 3%positive = VRef l1 ∧ is_Some (wired_store !! l1)
          ∧ twice_wired_store !! l1 = wired_store !! l1.
Proof.
  assert (Hrun1 : get_difficulty_scorer registry "ngram_perplexity" kwargs
            (VRef 1%positive) store = Ok (VRef 3%positive, wired_store)).
  { vm_compute. reflexivity. }
  assert (Hrun2 : get_difficulty_scorer registry "ngram_perplexity" kwargs
            (VRef 1%positive) wired_store
            = Ok (VRef 4%positive, twice_wired_store)).
  { vm_compute. reflexivity. }
  split; [exact Hrun1|].
  exact (get_difficulty_scorer_twice registry
           "ngram_perplexity" kwargs (VRef 1%positive)
           "ngram_perplexity" kwargs (VRef 1%positive)
           store (VRef 3%positive) wired_store
           (VRef 4%positive) twice_wired_store Hrun1 Hrun2).
Defined.

End FactoryErrorExamples.

(** * Further properties of the perplexity estimator *)

Section VariantFacts.
Import Inference.
Implicit Types (batch : gmap string (tensor Z)) (x sp : tensor Z).

Lemma concat_get3_all {A} (n : nat) (t : list (list (list A))) b i :
  Forall (λ m, length m = n) t → (b < length t)%nat → (i < n)%nat →
  ∃ row, concat t !! (b * n + i)%nat = Some row
         ∧ ∀ j, row !! j = get3 t b i j.
Proof.
  intros Ht Hb Hi.
  destruct (lookup_lt_is_Some_2 t b Hb) as [mat Hmat].
  assert (Hlen : length mat = n).
  { by apply (proj1 (Forall_lookup _ _) Ht b mat). }
  destruct (lookup_lt_is_Some_2 mat i) as [row Hrow]; [lia|].
  exists row. split.
  - by rewrite (lookup_concat_uniform n t b i mat).
  - intros j. unfold get3. rewrite Hmat. simpl. by rewrite Hrow.
Qed.

(** The masked inputs are built from [input_ids] alone. *)
Lemma masked_variants_masked m batch x masked labels :
  masked_variants m batch = Ok (masked, labels) →
  batch !! "input_ids" = Some x →
  masked = {| size1 := size1 x;
              rows := concat (masked3 m (size1 x) (rows x)) |}
  ∧ size1 x ≠ 0%nat ∧ size1 labels = size1 x
  ∧ is_Some (batch !! "special_tokens_mask").
Proof.
  intros Hrun Hx. unfold masked_variants in Hrun.
  rewrite (getitem_Some _ _ _ Hx) in Hrun. cbn [mbind result_bind] in Hrun.
  unfold getitem in Hrun.
  destruct (batch !! "special_tokens_mask") as [sp|]; [|done].
  cbn [mbind result_bind] in Hrun.
  destruct (masked_fill_broadcast _ _ _ _ _ _ _ _) as [[l2 filled]|];
    [|done].
  cbn [mbind result_bind] in Hrun.
  destruct (decide (size1 x = 0%nat)) as [HL|HL].
  { rewrite (view_rows_ambiguous (size1 x) _ _ HL) in Hrun.
    discriminate Hrun. }
  rewrite (view_rows_merge _ _ HL) in Hrun. cbn [mbind result_bind] in Hrun.
  destruct (view_rows l2 (size1 x) filled) as [lab|] eqn:Hlab; [|done].
  cbn [mbind result_bind] in Hrun. injection Hrun; intros <- <-.
  split; [reflexivity|]. split; [done|].
  split; [by apply view_rows_size1 in Hlab|]. eauto.
Qed.

(** X11: whenever the variants are built, variant [i] of example [b] is
    row [b * L + i] of the masked inputs; it holds the mask token at
    position [i], also when that position is a special token, and the
    original token at every other position.  The special-token mask plays
    no part in it. *)
Theorem masked_variants_inputs m batch x masked labels b i j r xj :
  masked_variants m batch = Ok (masked, labels) →
  batch !! "input_ids" = Some x →
  rows x !! b = Some r → r !! j = Some xj →
  (i < size1 x)%nat → (j < size1 x)%nat →
  ∃ row, rows masked !! (b * size1 x + i)%nat = Some row
         ∧ row !! j = Some (if decide (i = j) then m else xj).
Proof.
  intros Hrun Hx Hb Hj Hi Hjn.
  destruct (masked_variants_masked m batch x masked labels Hrun Hx)
    as (-> & _ & _ & _). simpl.
  destruct (masked3_length m (size1 x) (rows x)) as [H1 H2].
  destruct (concat_get3 (size1 x) (masked3 m (size1 x) (rows x)) b i j H1)
    as (row & Hrow & Hget); [|done|].
  { rewrite H2. apply lookup_lt_is_Some. eauto. }
  exists row. split; [exact Hrow|].
  rewrite Hget. by apply (get3_masked3 m (size1 x) _ b i j r xj).
Qed.

Lemma well_shaped_lookup (t : tensor Z) b r :
  well_shaped t = true → rows t !! b = Some r → length r = size1 t.
Proof.
  intros Hwf Hb. unfold well_shaped in Hwf. rewrite forallb_forall in Hwf.
  assert (Hin : In r (rows t)).
  { apply list_elem_of_In, list_elem_of_lookup. eauto. }
  by apply Hwf, bool_decide_eq_true in Hin.
Qed.

(** X13: for an example in which the mask token occurs at special
    positions only, the label row of variant [i] is the ignore index
    everywhere when position [i] is special, and otherwise the ignore index
    everywhere but at position [i], which holds the original token: at
    most one position is scored. *)
Theorem masked_variants_labels_one_position
    m batch x sp b i r s xi si :
  batch !! "input_ids" = Some x →
  batch !! "special_tokens_mask" = Some sp →
  size1 x ≠ 0%nat → size1 sp = size1 x → size0 sp = size0 x →
  well_shaped sp = true →
  rows x !! b = Some r → length r = size1 x →
  rows sp !! b = Some s →
  r !! i = Some xi → s !! i = Some si →
  (∀ j xj sj, r !! j = Some xj → s !! j = Some sj → xj = m → sj = 1) →
  ∃ masked labels,
    masked_variants m batch = Ok (masked, labels)
    ∧ rows labels !! (b * size1 x + i)%nat =
      Some (if decide (si = 1) then replicate (size1 x) ignore_index
            else <[i := xi]> (replicate (size1 x) ignore_index)).
Proof.
  intros Hx Hsp HL Hs1 Hs0 Hwf Hb Hr Hsb Hxi Hsi Hmask.
  pose proof (masked_variants_Ok m batch x sp Hx Hsp HL Hs1 Hs0 Hwf) as Hmv.
  eexists _, _. split; [exact Hmv|]. simpl.
  set (L := size1 x) in *.
  assert (Hs : length s = L).
  { rewrite <- Hs1. by apply (well_shaped_lookup sp b). }
  assert (Hi : (i < L)%nat).
  { rewrite <- Hr. apply lookup_lt_is_Some. eauto. }
  destruct (labels3_length m L (rows x) (rows sp) Hs0) as [H1 H2].
  destruct (concat_get3_all L (labels3 m L (rows x) (rows sp)) b i H1)
    as (row & Hrow & Hget); [|done|].
  { rewrite H2. apply lookup_lt_is_Some. eauto. }
  rewrite Hrow. f_equal. apply list_eq. intros j. rewrite Hget.
  destruct (decide (j < L)%nat) as [Hj|Hj].
  - destruct (lookup_lt_is_Some_2 r j) as [xj Hxj]; [lia|].
    destruct (lookup_lt_is_Some_2 s j) as [sj Hsj]; [lia|].
    rewrite (get3_labels3 m L (rows x) (rows sp) b i j r s xj sj) by done.
    pose proof (Hmask j xj sj Hxj Hsj) as Hm.
    destruct (decide (si = 1)) as [Hsi1|Hsi1].
    + rewrite lookup_replicate_2 by done. f_equal.
      destruct (decide (sj = 1)); [done|].
      destruct (decide (i = j ∨ xj = m)) as [[->|Hxm]|]; [| |done].
      * congruence.
      * by apply Hm in Hxm.
    + destruct (decide (i = j)) as [->|Hij].
      * rewrite list_lookup_insert_eq by by rewrite length_replicate.
        assert (sj = si) as -> by congruence.
        assert (xj = xi) as -> by congruence.
        rewrite decide_False by done. by rewrite decide_True by by left.
      * rewrite list_lookup_insert_ne by done.
        rewrite lookup_replicate_2 by done. f_equal.
        destruct (decide (sj = 1)); [done|].
        destruct (decide (i = j ∨ xj = m)) as [[?|Hxm]|]; [done| |done].
        by apply Hm in Hxm.
  - assert (Hnone : get3 (labels3 m L (rows x) (rows sp)) b i j = None).
    { unfold labels3. apply get3_masked_fill_None.
      rewrite (get3_special3 L (rows sp) b i j s Hsb Hi).
      by rewrite lookup_ge_None_2 by lia. }
    rewrite Hnone. symmetry. apply lookup_ge_None_2.
    destruct (decide (si = 1)); rewrite ?length_insert, length_replicate; lia.
Qed.

(** X14: both tensors handed to the model and to the loss have
    [batch_size * L] rows and second dimension [L]. *)
Theorem masked_variants_shape m batch x sp :
  batch !! "input_ids" = Some x →
  batch !! "special_tokens_mask" = Some sp →
  size1 x ≠ 0%nat → size1 sp = size1 x → size0 sp = size0 x →
  well_shaped sp = true →
  ∃ masked labels,
    masked_variants m batch = Ok (masked, labels)
    ∧ size1 masked = size1 x ∧ size0 masked = (size0 x * size1 x)%nat
    ∧ size1 labels = size1 x ∧ size0 labels = (size0 x * size1 x)%nat.
Proof.
  intros Hx Hsp HL Hs1 Hs0 Hwf.
  pose proof (masked_variants_Ok m batch x sp Hx Hsp HL Hs1 Hs0 Hwf) as Hmv.
  eexists _, _. split; [exact Hmv|]. unfold size0 in *. simpl.
  destruct (labels3_length m (size1 x) (rows x) (rows sp) Hs0) as [H1 H2].
  destruct (masked3_length m (size1 x) (rows x)) as [H3 H4].
  rewrite (length_concat_uniform _ _ H1), (length_concat_uniform _ _ H3).
  by rewrite H2, H4.
Qed.

(** X15: at a position whose label is not the ignore index, the masked
    input holds the mask token id, the label is the original token and the
    position is not special: a special token is never scored, and a scored
    token other than the mask token is hidden from the model.  (A token
    that is the mask token itself is scored wherever it occurs outside the
    special positions, and is what the model is shown there.) *)
Theorem masked_variants_scored_is_masked
    m batch x sp b i j r s xj sj :
  batch !! "input_ids" = Some x →
  batch !! "special_tokens_mask" = Some sp →
  size1 x ≠ 0%nat → size1 sp = size1 x → size0 sp = size0 x →
  well_shaped sp = true →
  rows x !! b = Some r → rows sp !! b = Some s →
  r !! j = Some xj → s !! j = Some sj →
  (i < size1 x)%nat → (j < size1 x)%nat →
  ∃ masked labels mrow lrow y,
    masked_variants m batch = Ok (masked, labels)
    ∧ rows masked !! (b * size1 x + i)%nat = Some mrow
    ∧ rows labels !! (b * size1 x + i)%nat = Some lrow
    ∧ lrow !! j = Some y
    ∧ (y ≠ ignore_index →
       mrow !! j = Some m ∧ y = xj ∧ sj ≠ 1
       ∧ (xj ≠ m → mrow !! j ≠ Some xj)).
Proof.
  intros Hx Hsp HL Hs1 Hs0 Hwf Hb Hsb Hj Hsj Hi Hjn.
  pose proof (masked_variants_Ok m batch x sp Hx Hsp HL Hs1 Hs0 Hwf) as Hmv.
  set (L := size1 x) in *.
  assert (Hbl : (b < length (rows x))%nat) by (apply lookup_lt_is_Some; eauto).
  destruct (labels3_length m L (rows x) (rows sp) Hs0) as [H1 H2].
  destruct (masked3_length m L (rows x)) as [H3 H4].
  destruct (concat_get3 L (labels3 m L (rows x) (rows sp)) b i j H1)
    as (lrow & Hlrow & Hlget); [lia|done|].
  destruct (concat_get3 L (masked3 m L (rows x)) b i j H3)
    as (mrow & Hmrow & Hmget); [lia|done|].
  rewrite (get3_labels3 m L (rows x) (rows sp) b i j r s xj sj) in Hlget
    by done.
  rewrite (get3_masked3 m L (rows x) b i j r xj) in Hmget by done.
  eexists _, _, mrow, lrow, _. split; [exact Hmv|]. simpl.
  split; [exact Hmrow|]. split; [exact Hlrow|]. split; [exact Hlget|].
  intros Hy. rewrite Hmget.
  destruct (decide (sj = 1)); [done|].
  destruct (decide (i = j ∨ xj = m)) as [Hor|]; [|done].
  assert (Hmask : (if decide (i = j) then m else xj) = m).
  { destruct (decide (i = j)); [done|]. destruct Hor as [? | ->]; done. }
  rewrite Hmask. repeat split; try done. congruence.
Qed.

End VariantFacts.

Section PerplexityErrors.
Import Inference.
Context {F Hidden : Type}.
Variable tsum : list F → F.
Variable tmean : list F → F.
Variable texp : F → F.
Implicit Types (batch : gmap string (tensor Z)) (x sp : tensor Z).
Implicit Types (trainer : @CustomTrainer F Hidden).

(** X16: with a tokenizer that has no mask token the assertion fails,
    before the batch, the model and the curriculum are looked at. *)
Theorem compute_trainer_perplexity_no_mask_token batch tokenizer trainer :
  mask_token_id tokenizer = None →
  compute_trainer_perplexity tsum tmean texp batch tokenizer trainer =
    Raise (AssertionError
             "The tokenizer must have a mask token and a pad token").
Proof. intros Hm. unfold compute_trainer_perplexity. by rewrite Hm. Qed.

(** X17: a batch without the key "input_ids", or with it and without
    the key "special_tokens_mask", raises [KeyError] with the first key
    that is missing. *)
Theorem compute_trainer_perplexity_missing_tensor
    batch tokenizer trainer m :
  mask_token_id tokenizer = Some m →
  batch !! "input_ids" = None ∨ batch !! "special_tokens_mask" = None →
  compute_trainer_perplexity tsum tmean texp batch tokenizer trainer =
    Raise (KeyError (match batch !! "input_ids" with
                     | None => "input_ids"
                     | Some _ => "special_tokens_mask"
                     end)).
Proof.
  intros Hm Hmiss. unfold compute_trainer_perplexity. rewrite Hm.
  cbn [assert_not_None mbind result_bind].
  destruct (batch !! "input_ids") as [x|] eqn:Hx.
  2:{ by rewrite (getitem_None _ _ Hx). }
  destruct Hmiss as [|Hsp]; [done|].
  rewrite (getitem_Some _ _ _ Hx).
  cbn [mbind result_bind]. unfold masked_variants.
  rewrite (getitem_Some _ _ _ Hx). cbn [mbind result_bind].
  by rewrite (getitem_None _ _ Hsp).
Qed.

(** X18: for sequences of length zero the call raises a [RuntimeError]:
    [view(-1, 0)] cannot infer the first dimension. *)
Theorem compute_trainer_perplexity_empty_sequences
    batch tokenizer trainer m x sp :
  mask_token_id tokenizer = Some m →
  batch !! "input_ids" = Some x →
  batch !! "special_tokens_mask" = Some sp →
  size1 x = 0%nat → size1 sp = 0%nat → size0 sp = size0 x →
  well_shaped sp = true →
  ∃ msg,
    compute_trainer_perplexity tsum tmean texp batch tokenizer trainer =
    Raise (RuntimeError msg).
Proof.
  intros Hm Hx Hsp HL Hs1 Hs0 Hwf. unfold compute_trainer_perplexity.
  rewrite Hm. cbn [assert_not_None mbind result_bind].
  rewrite (getitem_Some _ _ _ Hx). cbn [mbind result_bind].
  unfold masked_variants.
  rewrite (getitem_Some _ _ _ Hx). cbn [mbind result_bind].
  rewrite (getitem_Some _ _ _ Hsp). cbn [mbind result_bind].
  unfold size0 in *. rewrite Hs0, Hs1, HL.
  rewrite masked_fill_broadcast_special. cbn [mbind result_bind].
  rewrite view_rows_ambiguous by done. eauto.
Qed.

(** X19: with a well-formed batch and no unit "mlm" in the trainer's
    curriculum the call raises [KeyError] "mlm". *)
Theorem compute_trainer_perplexity_mlm_missing
    batch tokenizer trainer m x sp :
  mask_token_id tokenizer = Some m →
  batch !! "input_ids" = Some x →
  batch !! "special_tokens_mask" = Some sp →
  size1 x ≠ 0%nat → size1 sp = size1 x → size0 sp = size0 x →
  well_shaped sp = true →
  objective_curriculum_units trainer !! "mlm" = None →
  compute_trainer_perplexity tsum tmean texp batch tokenizer trainer =
    Raise (KeyError "mlm").
Proof.
  intros Hm Hx Hsp HL Hs1 Hs0 Hwf Hmlm.
  unfold compute_trainer_perplexity.
  rewrite Hm. cbn [assert_not_None mbind result_bind].
  rewrite (getitem_Some _ _ _ Hx). cbn [mbind result_bind].
  rewrite (masked_variants_Ok m batch x sp Hx Hsp HL Hs1 Hs0 Hwf).
  cbn [mbind result_bind]. by rewrite (getitem_None _ _ Hmlm).
Qed.

(** X20: when the loss comes back with a number of rows other than
    [batch_size * L] (a reduced loss, say), reshaping it to
    [(batch_size, L)] raises a [RuntimeError]. *)
Theorem compute_trainer_perplexity_loss_shape
    batch tokenizer trainer m x mlm masked labels :
  mask_token_id tokenizer = Some m →
  batch !! "input_ids" = Some x →
  masked_variants m batch = Ok (masked, labels) →
  objective_curriculum_units trainer !! "mlm" = Some mlm →
  size0 (compute_loss mlm (model trainer masked) labels)
    ≠ (size0 x * size1 x)%nat →
  ∃ msg,
    compute_trainer_perplexity tsum tmean texp batch tokenizer trainer =
    Raise (RuntimeError msg).
Proof.
  intros Hm Hx Hmv Hmlm Hshape. unfold compute_trainer_perplexity.
  rewrite Hm. cbn [assert_not_None mbind result_bind].
  rewrite (getitem_Some _ _ _ Hx). cbn [mbind result_bind].
  rewrite Hmv. cbn [mbind result_bind].
  rewrite (getitem_Some _ _ _ Hmlm). cbn [mbind result_bind].
  unfold view2. rewrite decide_False; [eauto|].
  by rewrite length_map.
Qed.

(** X21: whenever the call returns, the tokenizer has a mask token, the
    batch holds both tensors, the sequence length is not zero, the unit
    "mlm" exists, and the list returned has one value per row of
    [input_ids], whatever the sizes of the two tensors are (a special-token
    mask of another shape is broadcast against the labels) and whatever the
    loss returns. *)
Theorem compute_trainer_perplexity_Ok_inv batch tokenizer trainer ppl :
  compute_trainer_perplexity tsum tmean texp batch tokenizer trainer
    = Ok ppl →
  ∃ m x,
    mask_token_id tokenizer = Some m
    ∧ batch !! "input_ids" = Some x
    ∧ is_Some (batch !! "special_tokens_mask")
    ∧ size1 x ≠ 0%nat
    ∧ is_Some (objective_curriculum_units trainer !! "mlm")
    ∧ length ppl = size0 x.
Proof.
  unfold compute_trainer_perplexity.
  destruct (mask_token_id tokenizer) as [m|]; [|done].
  cbn [assert_not_None mbind result_bind].
  destruct (batch !! "input_ids") as [x|] eqn:Hx.
  2:{ by rewrite (getitem_None _ _ Hx). }
  rewrite (getitem_Some _ _ _ Hx). cbn [mbind result_bind].
  destruct (masked_variants m batch) as [[masked labels]|] eqn:Hmv; [|done].
  cbn [mbind result_bind]. unfold getitem.
  destruct (objective_curriculum_units trainer !! "mlm") as [mlm|]; [|done].
  cbn [mbind result_bind]. unfold view2.
  case_decide; [|done]. cbn [mbind result_bind]. intros [= <-].
  destruct (masked_variants_masked m batch x masked labels Hmv Hx)
    as (_ & HL & _ & Hsp).
  exists m, x. repeat split; try done; eauto.
  rewrite !length_map. by rewrite ?length_fmap, length_seq.
Qed.

(** X22: for a batch without examples (and a loss that returns no row
    for no label row) the call returns the empty list. *)
Theorem compute_trainer_perplexity_empty_batch
    batch tokenizer trainer m x sp mlm :
  mask_token_id tokenizer = Some m →
  batch !! "input_ids" = Some x →
  batch !! "special_tokens_mask" = Some sp →
  rows x = [] → rows sp = [] →
  size1 x ≠ 0%nat → size1 sp = size1 x →
  objective_curriculum_units trainer !! "mlm" = Some mlm →
  rows (compute_loss mlm (model trainer {| size1 := size1 x; rows := [] |})
          {| size1 := size1 x; rows := [] |}) = [] →
  compute_trainer_perplexity tsum tmean texp batch tokenizer trainer = Ok [].
Proof.
  intros Hm Hx Hsp Hrx Hrsp HL Hs1 Hmlm Hloss.
  unfold compute_trainer_perplexity.
  rewrite Hm. cbn [assert_not_None mbind result_bind].
  rewrite (getitem_Some _ _ _ Hx). cbn [mbind result_bind].
  rewrite (masked_variants_Ok m batch x sp Hx Hsp HL Hs1).
  2:{ unfold size0. by rewrite Hrx, Hrsp. }
  2:{ unfold well_shaped. by rewrite Hrsp. }
  cbn [mbind result_bind]. rewrite (getitem_Some _ _ _ Hmlm).
  cbn [mbind result_bind]. unfold size0. rewrite Hrx, Hrsp. simpl.
  by rewrite Hloss.
Qed.

End PerplexityErrors.

Section VariantExamples.
Import Inference InferenceSamples.

Lemma masked_variants_two_examples :
  masked_variants 4 two_examples
  = Ok (two_examples_masked, two_examples_labels).
Proof. vm_compute. reflexivity. Qed.

(** A special-token mask with two rows for a batch of one example: the
    labels are broadcast to two examples, each with its own mask row, and
    four label rows stand beside two rows of masked inputs. *)
Lemma masked_variants_more_mask_rows :
  masked_variants 4 more_mask_rows
  = Ok ({| size1 := 2; rows := [[4; 8]; [7; 4]] |},
        {| size1 := 2;
           rows := [[7; -100]; [-100; -100]; [-100; -100]; [-100; 8]] |}).
Proof. vm_compute. reflexivity. Qed.

(** A special-token mask with three columns for sequences of length one:
    the single label is broadcast along the mask and laid out again in
    rows of one. *)
Lemma masked_variants_more_mask_columns :
  masked_variants 4 more_mask_columns
  = Ok ({| size1 := 1; rows := [[4]] |},
        {| size1 := 1; rows := [[7]; [-100]; [7]] |}).
Proof. vm_compute. reflexivity. Qed.

(** Three mask columns against sequences of length two cannot be
    broadcast. *)
Lemma masked_variants_other_mask_columns :
  masked_variants 4 other_mask_columns
  = Raise (RuntimeError
             "The size of tensor a must match the size of tensor b").
Proof. vm_compute. reflexivity. Qed.

(** Variant 2 of the second example, position 1. *)
Lemma masked_variants_inputs_witness :
  masked_variants 4 two_examples
    = Ok (two_examples_masked, two_examples_labels)
  ∧ ∃ row, rows two_examples_masked !! 5%nat = Some row
           ∧ row !! 1%nat = Some 8.
Proof.
  split; [exact masked_variants_two_examples|].
  apply (masked_variants_inputs 4 two_examples
           {| size1 := 3; rows := [[1; 7; 2]; [1; 8; 2]] |}
           two_examples_masked two_examples_labels 1 2 1 [1; 8; 2] 8);
    [exact masked_variants_two_examples|reflexivity..|simpl; lia|simpl; lia].
Defined.

(** Variant 0 of the example that holds the mask token at position 1. *)
Lemma masked_variants_labels_witness :
  mask_in_input !! "input_ids" = Some {| size1 := 3; rows := [[7; 4; 9]] |}
  ∧ ∃ masked labels row,
      masked_variants 4 mask_in_input = Ok (masked, labels)
      ∧ rows labels !! 0%nat = Some row
      ∧ row !! 1%nat = Some 4.
Proof.
  split; [reflexivity|].
  apply (masked_variants_labels 4 mask_in_input
           {| size1 := 3; rows := [[7; 4; 9]] |}
           {| size1 := 3; rows := [[0; 0; 0]] |} 0 0 1 [7; 4; 9] [0; 0; 0]
           4 0);
    try reflexivity; try discriminate; simpl; lia.
Defined.

(** Variant 1 of the first of the two examples. *)
Lemma masked_variants_labels_one_position_witness :
  two_examples !! "input_ids"
    = Some {| size1 := 3; rows := [[1; 7; 2]; [1; 8; 2]] |}
  ∧ ∃ masked labels,
      masked_variants 4 two_examples = Ok (masked, labels)
      ∧ rows labels !! 1%nat = Some [-100; 7; -100].
Proof.
  split; [reflexivity|].
  apply (masked_variants_labels_one_position 4 two_examples
           {| size1 := 3; rows := [[1; 7; 2]; [1; 8; 2]] |}
           {| size1 := 3; rows := [[1; 0; 1]; [1; 0; 1]] |}
           0 1 [1; 7; 2] [1; 0; 1] 7 0);
    try reflexivity; try discriminate.
  intros [|[|[|j]]] xj sj Hx Hs Hm; by simplify_eq/=.
Defined.

(** Two examples of three tokens give six variants. *)
Lemma masked_variants_shape_witness :
  two_examples !! "input_ids"
    = Some {| size1 := 3; rows := [[1; 7; 2]; [1; 8; 2]] |}
  ∧ ∃ masked labels,
      masked_variants 4 two_examples = Ok (masked, labels)
      ∧ size1 masked = 3%nat ∧ size0 masked = 6%nat
      ∧ size1 labels = 3%nat ∧ size0 labels = 6%nat.
Proof.
  split; [reflexivity|].
  apply (masked_variants_shape 4 two_examples
           {| size1 := 3; rows := [[1; 7; 2]; [1; 8; 2]] |}
           {| size1 := 3; rows := [[1; 0; 1]; [1; 0; 1]] |});
    try reflexivity; discriminate.
Defined.

(** Variant 1 of the first of the two examples, position 1. *)
Lemma masked_variants_scored_is_masked_witness :
  two_examples !! "input_ids"
    = Some {| size1 := 3; rows := [[1; 7; 2]; [1; 8; 2]] |}
  ∧ ∃ masked labels mrow lrow y,
      masked_variants 4 two_examples = Ok (masked, labels)
      ∧ rows masked !! 1%nat = Some mrow
      ∧ rows labels !! 1%nat = Some lrow
      ∧ lrow !! 1%nat = Some y
      ∧ (y ≠ ignore_index →
         mrow !! 1%nat = Some 4 ∧ y = 7 ∧ 0 ≠ 1
         ∧ (7 ≠ 4 → mrow !! 1%nat ≠ Some 7)).
Proof.
  split; [reflexivity|].
  apply (masked_variants_scored_is_masked 4 two_examples
           {| size1 := 3; rows := [[1; 7; 2]; [1; 8; 2]] |}
           {| size1 := 3; rows := [[1; 0; 1]; [1; 0; 1]] |}
           0 1 1 [1; 7; 2] [1; 0; 1] 7 0);
    try reflexivity; try discriminate; simpl; lia.
Defined.

End VariantExamples.

Section PerplexityErrorExamples.
Import Inference InferenceSamples.

(** A tokenizer without a mask token, on a well-formed batch. *)
Lemma compute_trainer_perplexity_no_mask_token_witness :
  mask_token_id no_mask_tokenizer = None
  ∧ compute_trainer_perplexity Ideal.sum Ideal.mean Ideal.exp
      two_examples no_mask_tokenizer trainer
    = Raise (AssertionError
               "The tokenizer must have a mask token and a pad token").
Proof.
  split; [reflexivity|].
  apply (compute_trainer_perplexity_no_mask_token
           Ideal.sum Ideal.mean Ideal.exp two_examples no_mask_tokenizer
           trainer).
  reflexivity.
Defined.

(** A batch that holds "input_ids" only. *)
Lemma compute_trainer_perplexity_missing_tensor_witness :
  input_ids_only !! "special_tokens_mask" = None
  ∧ compute_trainer_perplexity Ideal.sum Ideal.mean Ideal.exp
      input_ids_only tokenizer trainer
    = Raise (KeyError "special_tokens_mask").
Proof.
  split; [reflexivity|].
  apply (compute_trainer_perplexity_missing_tensor
           Ideal.sum Ideal.mean Ideal.exp input_ids_only tokenizer trainer 4);
    [reflexivity|right; reflexivity].
Defined.

(** Two examples of length zero. *)
Lemma compute_trainer_perplexity_empty_sequences_witness :
  empty_sequences !! "input_ids" = Some {| size1 := 0; rows := [[]; []] |}
  ∧ ∃ msg,
      compute_trainer_perplexity Ideal.sum Ideal.mean Ideal.exp
        empty_sequences tokenizer trainer
      = Raise (RuntimeError msg).
Proof.
  split; [reflexivity|].
  apply (compute_trainer_perplexity_empty_sequences
           Ideal.sum Ideal.mean Ideal.exp empty_sequences tokenizer trainer 4
           {| size1 := 0; rows := [[]; []] |}
           {| size1 := 0; rows := [[]; []] |}); reflexivity.
Defined.

(** A trainer whose curriculum is empty. *)
Lemma compute_trainer_perplexity_mlm_missing_witness :
  objective_curriculum_units bare_trainer !! "mlm" = None
  ∧ compute_trainer_perplexity Ideal.sum Ideal.mean Ideal.exp
      two_examples tokenizer bare_trainer
    = Raise (KeyError "mlm").
Proof.
  split; [reflexivity|].
  apply (compute_trainer_perplexity_mlm_missing
           Ideal.sum Ideal.mean Ideal.exp two_examples tokenizer bare_trainer
           4 {| size1 := 3; rows := [[1; 7; 2]; [1; 8; 2]] |}
           {| size1 := 3; rows := [[1; 0; 1]; [1; 0; 1]] |});
    try reflexivity; discriminate.
Defined.

(** A loss that comes back as one row for six rows of labels. *)
Lemma compute_trainer_perplexity_loss_shape_witness :
  size0 (compute_loss reduced_unit (model reducing_trainer two_examples_masked)
           two_examples_labels) = 1%nat
  ∧ ∃ msg,
      compute_trainer_perplexity Ideal.sum Ideal.mean Ideal.exp
        two_examples tokenizer reducing_trainer
      = Raise (RuntimeError msg).
Proof.
  split; [reflexivity|].
  apply (compute_trainer_perplexity_loss_shape
           Ideal.sum Ideal.mean Ideal.exp two_examples tokenizer
           reducing_trainer 4
           {| size1 := 3; rows := [[1; 7; 2]; [1; 8; 2]] |}
           reduced_unit two_examples_masked two_examples_labels);
    [reflexivity|reflexivity|exact masked_variants_two_examples
    |reflexivity|vm_compute; discriminate].
Defined.

(** The call returns on a batch whose special-token mask has two rows
    for one example, when the loss has one row per row of masked inputs. *)
Lemma compute_trainer_perplexity_more_mask_rows :
  compute_trainer_perplexity Ideal.sum Ideal.mean Ideal.exp
    more_mask_rows tokenizer zero_trainer = Ok [Ideal.Finite 1].
Proof.
  unfold Ideal.exp. generalize exp_0. generalize Rtrigo_def.exp.
  intros e He. vm_compute. do 3 f_equal.
  transitivity (e 0%R); [f_equal; lra|exact He].
Qed.

(** A returning call on a batch whose two tensors differ in shape. *)
Lemma compute_trainer_perplexity_Ok_inv_witness :
  compute_trainer_perplexity Ideal.sum Ideal.mean Ideal.exp
    more_mask_rows tokenizer zero_trainer = Ok [Ideal.Finite 1]
  ∧ ∃ m x,
      mask_token_id tokenizer = Some m
      ∧ more_mask_rows !! "input_ids" = Some x
      ∧ is_Some (more_mask_rows !! "special_tokens_mask")
      ∧ size1 x ≠ 0%nat
      ∧ is_Some (objective_curriculum_units zero_trainer !! "mlm")
      ∧ length [Ideal.Finite 1] = size0 x.
Proof.
  split; [exact compute_trainer_perplexity_more_mask_rows|].
  exact (compute_trainer_perplexity_Ok_inv
           Ideal.sum Ideal.mean Ideal.exp more_mask_rows tokenizer
           zero_trainer [Ideal.Finite 1]
           compute_trainer_perplexity_more_mask_rows).
Defined.

(** The batch without examples. *)
Lemma compute_trainer_perplexity_empty_batch_witness :
  empty_batch !! "input_ids" = Some {| size1 := 3; rows := [] |}
  ∧ compute_trainer_perplexity Ideal.sum Ideal.mean Ideal.exp
      empty_batch tokenizer trainer = Ok [].
Proof.
  split; [reflexivity|].
  apply (compute_trainer_perplexity_empty_batch
           Ideal.sum Ideal.mean Ideal.exp empty_batch tokenizer trainer 4
           {| size1 := 3; rows := [] |} {| size1 := 3; rows := [] |}
           mlm_unit); try reflexivity; discriminate.
Defined.

End PerplexityErrorExamples.
